(** * OF2 workflow (of2_cli.py): a shallow embedding and its properties

    The script drives ArcPy: it resolves three dataset references, makes
    three feature layers, selects the storm layers by location, merges the
    selections through a field-mapping plan and removes identical records.
    Run as a program, it parses its command line and reports how the
    workflow went by its exit status.

    Layout of this file:
    - [Py]         the Python string operations the script relies on;
    - [OsPath]     the [os.path] interface, with [posixpath] as an instance;
    - [Arcpy]      the ArcPy interface the script consumes (a store);
    - the monad [M] of the script: environment and store as state,
      exceptions, and the trace of the calls made;
    - the four functions of the workflow, in source order;
    - [argparse], [Interpreter] and the two functions of the command
      line, [parse_args] and [main];
    - [RefStore]   a small in-memory store to run the script on,
      [NameStore] a lighter one, and [RefCli] a reference interpreter;
    - the vocabulary of the properties;
    - the properties: strings and [resolve_dataset], the plan of
      [build_field_mappings], a weakest-precondition calculus for runs,
      [run_of2] and [ensure_layer], [main], and runs on the reference
      stores. *)

From Stdlib Require Import ZArith Ascii String List Bool Lia.
From stdpp Require Import base strings gmap list.

Local Open Scope Z_scope.

(** ** Python strings

    A [str] is modelled as a [string] of code points below 256 (Latin-1).
    The one place where the script looks into the characters of a string
    lowers it and compares a prefix with ASCII text; no code point above
    255 lowers to a character of ["https://"], so nothing is lost there. *)
Module Py.

(** [ch.lower()] on one code point: [A-Z], and the Latin-1 capitals
    U+00C0..U+00DE without the multiplication sign U+00D7. *)
Definition lower_char (c : ascii) : ascii :=
  let n := N_of_ascii c in
  if ((65 <=? n) && (n <=? 90))%N
     || ((192 <=? n) && (n <=? 222) && negb (n =? 215))%N
  then ascii_of_N (n + 32)
  else c.

(** [s.lower()] *)
Fixpoint lower (s : string) : string :=
  match s with
  | EmptyString => EmptyString
  | String c s' => String (lower_char c) (lower s')
  end.

(** [s.startswith(p)] *)
Fixpoint startswith (s p : string) {struct p} : bool :=
  match p, s with
  | EmptyString, _ => true
  | String _ _, EmptyString => false
  | String a p', String b s' => Ascii.eqb a b && startswith s' p'
  end.

(** [s.startswith((p1, p2, ...))] *)
Definition startswith_any (s : string) (ps : list string) : bool :=
  existsb (startswith s) ps.

(** [s.endswith(p)] for a one-character [p] *)
Fixpoint endswith_char (s : string) (c : ascii) : bool :=
  match s with
  | EmptyString => false
  | String a EmptyString => Ascii.eqb a c
  | String _ s' => endswith_char s' c
  end.

(** truth value of a [str] *)
Definition truthy (s : string) : bool := negb (String.eqb s "").

(** [o or d] for [o : Optional[str]] and [d : str] *)
Definition or_str (o : option string) (d : string) : string :=
  match o with
  | Some s => if truthy s then s else d
  | None => d
  end.

(** [x in xs] for a list of [str] *)
Definition contains (x : string) (xs : list string) : bool :=
  existsb (String.eqb x) xs.

Definition hex_digit (n : N) : ascii :=
  if (n <? 10)%N then ascii_of_N (48 + n) else ascii_of_N (87 + n).

(** [repr] of one code point inside a literal quoted by [q]. *)
Definition repr_char (q c : ascii) : string :=
  let n := N_of_ascii c in
  if Ascii.eqb c q || Ascii.eqb c "\"%char then String "\"%char (String c EmptyString)
  else if (n =? 9)%N then "\t"
  else if (n =? 10)%N then "\n"
  else if (n =? 13)%N then "\r"
  else if (n <? 32)%N || (n =? 127)%N
          || ((128 <=? n) && (n <=? 160))%N || (n =? 173)%N
  then String "\"%char (String "x"%char
         (String (hex_digit (n / 16)) (String (hex_digit (n mod 16)) EmptyString)))
  else String c EmptyString.

Fixpoint repr_body (q : ascii) (s : string) : string :=
  match s with
  | EmptyString => EmptyString
  | String c s' => repr_char q c +:+ repr_body q s'
  end.

Fixpoint has_char (c : ascii) (s : string) : bool :=
  match s with
  | EmptyString => false
  | String a s' => Ascii.eqb a c || has_char c s'
  end.

(** the double quote, U+0022 *)
Definition dquote : ascii := ascii_of_N 34.

(** [repr(s)]: single quotes, unless [s] has a single quote and no
    double quote. *)
Definition repr (s : string) : string :=
  let q := if has_char "'"%char s && negb (has_char dquote s)
           then dquote else "'"%char in
  String q (repr_body q s) +:+ String q EmptyString.

Fixpoint repr_items (xs : list string) : string :=
  match xs with
  | [] => ""
  | [x] => repr x
  | x :: xs' => repr x +:+ ", " +:+ repr_items xs'
  end.

(** [repr(xs)] for a list of [str], which is what an f-string prints. *)
Definition repr_list (xs : list string) : string :=
  "[" +:+ repr_items xs +:+ "]".

End Py.

(** ** [os.path]

    The script runs under ArcGIS Pro (ntpath) or ArcGIS Server (posixpath),
    so the functions of [os.path] it calls are an interface. *)
Class OsPath := {
  isabs : string -> bool;
  join : string -> string -> string;
  dirname : string -> string;
  abspath : string -> string
}.

(** [posixpath], with the current directory as a parameter. *)
Module posixpath.

Definition sep : ascii := "/"%char.

Definition isabs (s : string) : bool := Py.startswith s "/".

Definition join (a b : string) : string :=
  if Py.startswith b "/" then b
  else if negb (Py.truthy a) || Py.endswith_char a sep then a +:+ b
  else a +:+ "/" +:+ b.

Fixpoint drop_while (f : ascii -> bool) (l : list ascii) : list ascii :=
  match l with
  | [] => []
  | c :: l' => if f c then drop_while f l' else l
  end.

(** [s.rstrip('/')] on the characters of [s] *)
Definition rstrip_sep (l : list ascii) : list ascii :=
  rev (drop_while (Ascii.eqb sep) (rev l)).

Definition dirname (p : string) : string :=
  let l := list_ascii_of_string p in
  let head := rev (drop_while (fun c => negb (Ascii.eqb c sep)) (rev l)) in
  let head :=
    if negb (length head =? 0)%nat && negb (forallb (Ascii.eqb sep) head)
    then rstrip_sep head else head in
  string_of_list_ascii head.

(** [s.split('/')] *)
Fixpoint split_sep (cur : list ascii) (l : list ascii) : list string :=
  match l with
  | [] => [string_of_list_ascii (rev cur)]
  | c :: l' =>
      if Ascii.eqb c sep
      then string_of_list_ascii (rev cur) :: split_sep [] l'
      else split_sep (c :: cur) l'
  end.

(** the loop of [normpath]; [new_comps] is kept reversed *)
Fixpoint norm_comps (initial_slashes : nat) (comps new_comps : list string)
  : list string :=
  match comps with
  | [] => rev new_comps
  | comp :: comps' =>
      if String.eqb comp "" || String.eqb comp "." then
        norm_comps initial_slashes comps' new_comps
      else if negb (String.eqb comp "..")
              || ((initial_slashes =? 0)%nat && (length new_comps =? 0)%nat)
              || match new_comps with
                 | last :: _ => String.eqb last ".."
                 | [] => false
                 end
      then norm_comps initial_slashes comps' (comp :: new_comps)
      else norm_comps initial_slashes comps' (tl new_comps)
  end.

Definition normpath (path : string) : string :=
  if negb (Py.truthy path) then "."
  else
    let initial_slashes :=
      if Py.startswith path "/" then
        if Py.startswith path "//" && negb (Py.startswith path "///")
        then 2%nat else 1%nat
      else 0%nat in
    let comps := split_sep [] (list_ascii_of_string path) in
    let path' := String.concat "/" (norm_comps initial_slashes comps []) in
    let path' :=
      match initial_slashes with
      | 0%nat => path'
      | 1%nat => "/" +:+ path'
      | _ => "//" +:+ path'
      end in
    if Py.truthy path' then path' else ".".

Definition abspath (cwd path : string) : string :=
  normpath (if Py.startswith path "/" then path else join cwd path).

Definition os_path (cwd : string) : OsPath :=
  Build_OsPath isabs join dirname (abspath cwd).

End posixpath.

(** ** ArcPy objects *)

(** [arcpy.Field]: the two properties the script assigns, and the type as
    one of those it leaves alone. *)
Record Field := {
  name : string;
  aliasName : string;
  type : string
}.

(** [arcpy.FieldMap]: the input fields as (table, field name) pairs in
    the order they were added, the output field and the merge rule. *)
Record FieldMap := {
  inputFields : list (string * string);
  outputField : Field;
  mergeRule : string
}.

(** [arcpy.FieldMappings]: field maps in the order of [addFieldMap]. *)
Definition FieldMappings := list FieldMap.

(** [arcpy.env], the four settings the script overrides. *)
Record Env := {
  workspace : option string;
  scratchWorkspace : option string;
  overwriteOutput : bool;
  parallelProcessingFactor : option string
}.

Inductive exn :=
| FileNotFoundError (msg : string)
| RuntimeError (msg : string)
| ExecuteError (msg : string).

Inductive result (A : Type) :=
| Ok (a : A)
| Raise (e : exn).
Arguments Ok {A} a.
Arguments Raise {A} e.

(** ** The ArcPy interface

    [world] is the state of the dataset store (datasets, layers and their
    selections).  Queries read it; tools return a new one, also when they
    raise.  Every operation sees [arcpy.env] and none changes it. *)
Class Arcpy (world : Type) := {
  arcpy_Exists : Env -> world -> string -> bool;
  (** the schema lookup of [FieldMap.addInputField(table, field)];
      [None] is what makes [addInputField] raise *)
  arcpy_find_field : Env -> world -> string -> string -> option Field;
  (** the output field and the merge rule of a fresh [arcpy.FieldMap()] *)
  arcpy_default_field : Field;
  arcpy_default_rule : string;
  (** [int(arcpy.management.GetCount(layer)[0])] *)
  arcpy_GetCount : Env -> world -> string -> result Z;
  arcpy_ListFields : Env -> world -> string -> result (list Field);
  arcpy_Delete : Env -> string -> world -> result unit * world;
  arcpy_MakeFeatureLayer :
    Env -> string -> string -> string -> world -> result unit * world;
  arcpy_SelectLayerByLocation :
    Env -> list string -> string -> string -> string -> world
    -> result unit * world;
  (** [str(arcpy.management.Merge(...)[0])] *)
  arcpy_Merge :
    Env -> list string -> string -> FieldMappings -> world
    -> result string * world;
  arcpy_DeleteIdentical :
    Env -> string -> list string -> world -> result unit * world
}.

(** ** Traces: the calls a run makes, each with its outcome *)

Inductive call :=
| cExists (name : string)
| cDelete (name : string)
| cMakeFeatureLayer (in_features out_layer where_clause : string)
| cSelectLayerByLocation (in_layer : list string)
    (overlap_type select_features selection_type : string)
| cGetCount (layer : string)
| cMerge (inputs : list string) (output : string) (field_mappings : FieldMappings)
| cListFields (dataset : string)
| cDeleteIdentical (in_dataset : string) (fields : list string).

Inductive value :=
| VNone
| VBool (b : bool)
| VInt (z : Z)
| VStr (s : string)
| VFields (fs : list Field).

Inductive level := INFO | WARNING.

(** what a run did at one step: a call of ArcPy with its outcome, or a
    record handed to [logging] *)
Inductive entry :=
| Called (c : call) (r : result value)
| Logged (l : level) (msg : string) (args : list Z).

Definition map_result {A B} (f : A -> B) (r : result A) : result B :=
  match r with
  | Ok a => Ok (f a)
  | Raise e => Raise e
  end.

Section Script.

Context {os_path : OsPath}.
Context {world : Type} {arcpy : Arcpy world}.

(** ** The monad of the script *)

Record state := {
  env : Env;
  store : world
}.

(** an event of the trace: the state in which the step was taken, and
    the step *)
Definition event : Type := state * entry.

Definition M (A : Type) : Type := state -> result A * state * list event.

Definition ret {A} (a : A) : M A := fun st => (Ok a, st, []).

Definition bind {A B} (m : M A) (k : A -> M B) : M B := fun st =>
  match m st with
  | (Ok a, st1, t1) =>
      match k a st1 with
      | (r, st2, t2) => (r, st2, t1 ++ t2)
      end
  | (Raise e, st1, t1) => (Raise e, st1, t1)
  end.

Definition raise {A} (e : exn) : M A := fun st => (Raise e, st, []).

(** [try: m  except Exception as e: h e] *)
Definition try_except {A} (m : M A) (h : exn -> M A) : M A := fun st =>
  match m st with
  | (Ok a, st1, t1) => (Ok a, st1, t1)
  | (Raise e, st1, t1) =>
      match h e st1 with
      | (r, st2, t2) => (r, st2, t1 ++ t2)
      end
  end.

(** [try: m  finally: fin] *)
Definition try_finally {A} (m : M A) (fin : M unit) : M A := fun st =>
  match m st with
  | (r, st1, t1) =>
      match fin st1 with
      | (Ok _, st2, t2) => (r, st2, t1 ++ t2)
      | (Raise e, st2, t2) => (Raise e, st2, t1 ++ t2)
      end
  end.

(** [with cm: body], for a context manager whose [__exit__] returns
    nothing, so that an exception of the body propagates. *)
Definition with_ {R A} (enter : M R) (exit : R -> M unit) (body : M A) : M A :=
  bind enter (fun r => try_finally body (exit r)).

(** [if b: m] *)
Definition when (b : bool) (m : M unit) : M unit :=
  if b then m else ret tt.

(** [for x in xs: s = body x s] *)
Fixpoint for_ {X S} (xs : list X) (body : X -> S -> M S) (s : S) : M S :=
  match xs with
  | [] => ret s
  | x :: xs' => bind (body x s) (for_ xs' body)
  end.

Notation "x <- m ;; k" := (bind m (fun x => k))
  (at level 20, m at level 99, k at level 200, only parsing).
Notation "m ;; k" := (bind m (fun _ => k))
  (at level 100, k at level 200, only parsing, right associativity).

(** a query: reads the store, leaves it as it is *)
Definition query {A} (c : call) (inj : A -> value)
    (f : Env -> world -> result A) : M A := fun st =>
  let r := f (env st) (store st) in
  (r, st, [(st, Called c (map_result inj r))]).

(** a tool: runs on the store and returns the new one *)
Definition tool {A} (c : call) (inj : A -> value)
    (f : Env -> world -> result A * world) : M A := fun st =>
  match f (env st) (store st) with
  | (r, w) =>
      (r, {| env := env st; store := w |}, [(st, Called c (map_result inj r))])
  end.

Definition Exists (name : string) : M bool :=
  query (cExists name) VBool (fun e w => Ok (arcpy_Exists e w name)).

Definition GetCount (layer : string) : M Z :=
  query (cGetCount layer) VInt (fun e w => arcpy_GetCount e w layer).

Definition ListFields (dataset : string) : M (list Field) :=
  query (cListFields dataset) VFields (fun e w => arcpy_ListFields e w dataset).

Definition Delete (name : string) : M unit :=
  tool (cDelete name) (fun _ => VNone) (fun e => arcpy_Delete e name).

Definition MakeFeatureLayer (in_features out_layer where_clause : string) : M unit :=
  tool (cMakeFeatureLayer in_features out_layer where_clause) (fun _ => VNone)
    (fun e => arcpy_MakeFeatureLayer e in_features out_layer where_clause).

Definition SelectLayerByLocation (in_layer : list string)
    (overlap_type select_features selection_type : string) : M unit :=
  tool (cSelectLayerByLocation in_layer overlap_type select_features selection_type)
    (fun _ => VNone)
    (fun e => arcpy_SelectLayerByLocation e in_layer overlap_type
                select_features selection_type).

Definition Merge (inputs : list string) (output : string)
    (field_mappings : FieldMappings) : M string :=
  tool (cMerge inputs output field_mappings) VStr
    (fun e => arcpy_Merge e inputs output field_mappings).

Definition DeleteIdentical (in_dataset : string) (fields : list string) : M unit :=
  tool (cDeleteIdentical in_dataset fields) (fun _ => VNone)
    (fun e => arcpy_DeleteIdentical e in_dataset fields).

(** [logging.info(msg, *args)] and [logging.warning(msg, *args)] *)
Definition logging (l : level) (msg : string) (args : list Z) : M unit :=
  fun st => (Ok tt, st, [(st, Logged l msg args)]).

(** [arcpy.FieldMap()]: no input field yet *)
Definition new_FieldMap : FieldMap :=
  {| inputFields := [];
     outputField := arcpy_default_field;
     mergeRule := arcpy_default_rule |}.

(** [fmap.addInputField(table, field_name)]: raises when the table has
    no such field; otherwise the pair is appended to the input fields,
    and the first input field gives the output field its properties. *)
Definition addInputField (fmap : FieldMap) (table field_name : string) : M FieldMap :=
  fun st =>
    match arcpy_find_field (env st) (store st) table field_name with
    | Some f =>
        (Ok {| inputFields := inputFields fmap ++ [(table, field_name)];
               outputField := match inputFields fmap with
                              | [] => f
                              | _ :: _ => outputField fmap
                              end;
               mergeRule := mergeRule fmap |}, st, [])
    | None =>
        (Raise (RuntimeError "FieldMap: Error in adding input field to field map"),
         st, [])
    end.

(** [arcpy.EnvManager(workspace=..., scratchWorkspace=...,
    overwriteOutput=..., parallelProcessingFactor=...)]: [__enter__]
    keeps the current settings and installs the given ones, [__exit__]
    puts the kept ones back. *)
Definition EnvManager_enter (settings : Env) : M Env := fun st =>
  (Ok (env st), {| env := settings; store := store st |}, []).

Definition EnvManager_exit (saved : Env) : M unit := fun st =>
  (Ok tt, {| env := saved; store := store st |}, []).

(** ** [resolve_dataset] *)
Definition resolve_dataset (path_or_name workspace_gdb : string) : string :=
  if isabs path_or_name
     || Py.startswith_any (Py.lower path_or_name) ["http://"; "https://"]
  then path_or_name
  else join workspace_gdb path_or_name.

(** ** [ensure_layer] *)
Definition ensure_layer (dataset_path layer_name : string)
    (where_ : option string) : M string :=
  ex <- Exists layer_name ;;
  when ex (Delete layer_name) ;;
  MakeFeatureLayer dataset_path layer_name (Py.or_str where_ "") ;;
  ret layer_name.

(** ** [build_field_mappings] *)
Definition desired : list (string * string) :=
  [("OrigPlan", "Original Plan"); ("DocLink", "Document Link")].

Definition build_field_mappings (inputs : list string) : M FieldMappings :=
  for_ desired (fun '(field_name, alias) field_mappings =>
    fa <- for_ inputs (fun src '(fmap, added_any) =>
            try_except
              (fmap' <- addInputField fmap src field_name ;;
               ret (fmap', true))
              (fun _ => ret (fmap, added_any)))
            (new_FieldMap, false) ;;
    let '(fmap, added_any) := fa in
    when (negb added_any)
      (raise (RuntimeError ("Field '" +:+ field_name
                +:+ "' not found in any input: " +:+ Py.repr_list inputs))) ;;
    let out_field := outputField fmap in
    let out_field := {| name := field_name;
                        aliasName := aliasName out_field;
                        type := type out_field |} in
    let out_field := {| name := name out_field;
                        aliasName := alias;
                        type := type out_field |} in
    let fmap := {| inputFields := inputFields fmap;
                   outputField := out_field;
                   mergeRule := mergeRule fmap |} in
    let fmap := {| inputFields := inputFields fmap;
                   outputField := outputField fmap;
                   mergeRule := "First" |} in
    ret (field_mappings ++ [fmap]))
    [].

(** ** [run_of2] *)
Definition run_of2 (expression workspace_gdb storm_catchment storm_cleanout
    parcels output_fc : string) (scratch_gdb : option string) : M string :=
  let workspace_gdb := abspath workspace_gdb in
  let scratch_gdb :=
    match scratch_gdb with
    | Some s => if Py.truthy s then abspath s else workspace_gdb
    | None => workspace_gdb
    end in
  with_ (EnvManager_enter
           {| workspace := Some workspace_gdb;
              scratchWorkspace := Some scratch_gdb;
              overwriteOutput := true;
              parallelProcessingFactor := Some "100%" |})
        EnvManager_exit
    (let parcels_path := resolve_dataset parcels workspace_gdb in
     let sc_path := resolve_dataset storm_catchment workspace_gdb in
     let so_path := resolve_dataset storm_cleanout workspace_gdb in

     ex <- Exists parcels_path ;;
     when (negb ex)
       (raise (FileNotFoundError ("Parcels dataset not found: " +:+ parcels_path))) ;;
     ex <- Exists sc_path ;;
     when (negb ex)
       (raise (FileNotFoundError ("Storm Catchment dataset not found: " +:+ sc_path))) ;;
     ex <- Exists so_path ;;
     when (negb ex)
       (raise (FileNotFoundError ("Storm Cleanout dataset not found: " +:+ so_path))) ;;

     parcels_lyr <- ensure_layer parcels_path "parcels_layer" (Some expression) ;;
     sc_lyr <- ensure_layer sc_path "storm_catchment_layer" None ;;
     so_lyr <- ensure_layer so_path "storm_cleanout_layer" None ;;

     SelectLayerByLocation [sc_lyr; so_lyr] "INTERSECT" parcels_lyr "NEW_SELECTION" ;;

     sc_count <- GetCount sc_lyr ;;
     so_count <- GetCount so_lyr ;;
     logging INFO "Selected %d catchment and %d cleanout features"
       [sc_count; so_count] ;;

     let inputs := [sc_lyr; so_lyr] in
     field_mappings <- build_field_mappings inputs ;;

     let out_path :=
       if Py.truthy (dirname output_fc) then output_fc
       else join workspace_gdb output_fc in

     ex <- Exists out_path ;;
     when ex (Delete out_path) ;;

     out_fc_path <- Merge inputs out_path field_mappings ;;

     fs <- ListFields out_fc_path ;;
     (if Py.contains "OrigPlan" (map name fs)
      then DeleteIdentical out_fc_path ["OrigPlan"]
      else logging WARNING
             "Field 'OrigPlan' not present in output; skipping DeleteIdentical" []) ;;

     ret out_fc_path).

End Script.

(** ** The command line

    [parse_args] declares the arguments of the script and hands the
    command line to [argparse]; [main] runs the workflow on what comes
    back.  The parser of [argparse] and standard output belong to the
    interpreter and are an interface. *)
Module argparse.

Inductive Action := store | store_true.

(** one call of [add_argument]: the option strings and the keywords
    [dest], [default], [action] and [help]; [None] for a keyword that
    is not given *)
Record Argument := {
  option_strings : list string;
  dest : option string;
  default : option string;
  action : Action;
  help : string
}.

Record ArgumentParser := {
  description : string;
  arguments : list Argument
}.

(** the namespace of the script: one attribute for each argument, a
    [str] for a stored option, [Optional[str]] for the one whose
    default is [None], a [bool] for the flag *)
Record Namespace := {
  workspace : string;
  scratch : option string;
  storm_catchment : string;
  storm_cleanout : string;
  parcels : string;
  expression : string;
  output : string;
  verbose : bool
}.

(** how parsing ends: with a namespace, or with [SystemExit] *)
Inductive parsed :=
| Parsed (args : Namespace)
| Exit (status : Z).

End argparse.

(** the interpreter's side of [main] *)
Class Interpreter := {
  (** [parser.parse_args(argv)] *)
  argparse_parse_args : argparse.ArgumentParser -> list string -> argparse.parsed;
  (** [print(line)]: [None] when the line was written, and the text of
      the exception that [print] raised otherwise *)
  print_raises : string -> option string
}.

(** the parser that [parse_args] builds *)
Definition parser : argparse.ArgumentParser :=
  {| argparse.description := "Run the OF2 workflow using ArcPy";
     argparse.arguments :=
       [ {| argparse.option_strings := ["--workspace"];
            argparse.dest := None;
            argparse.default :=
              Some "C:\\Users\\asauls\\City of Kent\\PW GIS - Private - Documents\\Analyst Folders\\Andy\\General GIS\\Default.gdb";
            argparse.action := argparse.store;
            argparse.help := "Path to the primary file geodatabase (GDB)" |};
         {| argparse.option_strings := ["--scratch"];
            argparse.dest := None;
            argparse.default := None;
            argparse.action := argparse.store;
            argparse.help := "Optional scratch GDB path (defaults to --workspace)" |};
         {| argparse.option_strings := ["--storm-catchment"];
            argparse.dest := Some "storm_catchment";
            argparse.default := Some "Storm (Public and Private)\Storm Catchment";
            argparse.action := argparse.store;
            argparse.help :=
              "Path or name of Storm Catchment feature class (relative names resolved in --workspace)" |};
         {| argparse.option_strings := ["--storm-cleanout"];
            argparse.dest := Some "storm_cleanout";
            argparse.default := Some "Storm (Public and Private)\Storm Cleanout";
            argparse.action := argparse.store;
            argparse.help :=
              "Path or name of Storm Cleanout feature class (relative names resolved in --workspace)" |};
         {| argparse.option_strings := ["--parcels"];
            argparse.dest := None;
            argparse.default := Some "Parcels";
            argparse.action := argparse.store;
            argparse.help :=
              "Path or name of Parcels feature class (relative names resolved in --workspace)" |};
         {| argparse.option_strings := ["--expression"];
            argparse.dest := None;
            argparse.default := Some "PARCEL_NUMBER = '6195400110'";
            argparse.action := argparse.store;
            argparse.help := "SQL where clause to filter Parcels" |};
         {| argparse.option_strings := ["--output"];
            argparse.dest := None;
            argparse.default := Some "OF_property_edit";
            argparse.action := argparse.store;
            argparse.help :=
              "Output feature class name or full path (defaults inside --workspace)" |};
         {| argparse.option_strings := ["-v"; "--verbose"];
            argparse.dest := None;
            argparse.default := None;
            argparse.action := argparse.store_true;
            argparse.help := "Enable verbose logging" |} ] |}.

(** [logging.DEBUG] and [logging.INFO] *)
Definition logging_DEBUG : Z := 10.
Definition logging_INFO : Z := 20.

(** an exception that [main] catches: one that the workflow raised, or
    one that [print] raised, known by its text *)
Inductive caught :=
| Workflow (e : exn)
| Printing (text : string).

(** how [main] ends: it returns a code, or [SystemExit] goes through it *)
Inductive termination :=
| Return (code : Z)
| SystemExit (status : Z).

(** what [main] did at one step; [S] is the state of the workflow *)
Inductive act (S : Type) :=
| BasicConfig (level : Z) (format : string)
| Ran (ev : S * entry)
| LoggedInfo (msg arg : string)
| Print (line : string) (raised : option string)
| LoggedException (msg : string) (exc : caught).
Arguments BasicConfig {S} level format.
Arguments Ran {S} ev.
Arguments LoggedInfo {S} msg arg.
Arguments Print {S} line raised.
Arguments LoggedException {S} msg exc.

Section Cli.

Context {os_path : OsPath}.
Context {world : Type} {arcpy : Arcpy world}.
Context {interpreter : Interpreter}.

(** ** [parse_args] *)
Definition parse_args (argv : list string) : argparse.parsed :=
  argparse_parse_args parser argv.

(** ** [main]

    [SystemExit] of the parser is raised before the [try] and is no
    [Exception]: it goes through.  Everything that the workflow and
    [print] raise is an [Exception] and is caught. *)
Definition main (argv : list string) (st : @state world)
  : termination * @state world * list (act (@state world)) :=
  match parse_args argv with
  | argparse.Exit status => (SystemExit status, st, [])
  | argparse.Parsed args =>
      let config :=
        BasicConfig
          (if argparse.verbose args then logging_DEBUG else logging_INFO)
          "%(asctime)s %(levelname)s %(message)s" in
      match run_of2 (argparse.expression args) (argparse.workspace args)
              (argparse.storm_catchment args) (argparse.storm_cleanout args)
              (argparse.parcels args) (argparse.output args)
              (argparse.scratch args) st with
      | (r, st', tr) =>
          (* the body of [try], after the call of [run_of2] *)
          let attempt : (Z + caught) * list (act (@state world)) :=
            match r with
            | Ok out_fc =>
                match print_raises out_fc with
                | None =>
                    (inl 0, [LoggedInfo "Output written: %s" out_fc;
                             Print out_fc None])
                | Some text =>
                    (inr (Printing text),
                     [LoggedInfo "Output written: %s" out_fc;
                      Print out_fc (Some text)])
                end
            | Raise exc => (inr (Workflow exc), [])
            end in
          match attempt with
          | (inl code, acts) => (Return code, st', config :: map Ran tr ++ acts)
          | (inr exc, acts) =>
              (Return 1, st',
               config :: map Ran tr ++ acts
               ++ [LoggedException "OF2 failed: %s" exc])
          end
      end
  end.

(** ** The script run as a program: [sys.exit(main(sys.argv[1:]))]

    The exit status of the process is the code that [main] returns, or
    the status of the [SystemExit] that went through it. *)
Definition script (sys_argv : list string) (st : @state world)
  : Z * @state world * list (act (@state world)) :=
  match main (tl sys_argv) st with
  | (Return code, st', acts) => (code, st', acts)
  | (SystemExit status, st', acts) => (status, st', acts)
  end.

End Cli.

(** ** A reference store

    An in-memory store to run the script on: datasets and layers live in
    one name space; a layer is a copy of the rows that pass its where
    clause, with an optional selection.  Geometries are sets of grid
    cells, and two features intersect when they share a cell. *)
Module RefStore.

Record feature := {
  shape : list nat;
  attributes : list (string * string)
}.

Record item := {
  fields : list Field;
  rows : list feature;
  selection : option (list feature)
}.

Definition world := gmap string item.

(** the rows a tool works on: the selection when there is one *)
Definition active (it : item) : list feature :=
  match selection it with
  | Some sel => sel
  | None => rows it
  end.

Fixpoint attribute (f : string) (l : list (string * string)) : string :=
  match l with
  | [] => ""
  | (k, v) :: l' => if String.eqb k f then v else attribute f l'
  end.

(** where clauses of the reference store: the empty clause, and
    [FIELD = 'value'] *)
Definition eval_where (clause : string) : option (feature -> bool) :=
  if String.eqb clause "" then Some (fun _ => true)
  else
    match String.index 0 " = '" clause with
    | Some i =>
        let n := String.length clause in
        if Py.endswith_char clause "'"%char && (i + 5 <=? n)%nat then
          let f := String.substring 0 i clause in
          let v := String.substring (i + 4) (n - i - 5) clause in
          Some (fun r => String.eqb (attribute f (attributes r)) v)
        else None
    | None => None
    end.

Definition intersects (a b : feature) : bool :=
  existsb (fun c => existsb (Nat.eqb c) (shape b)) (shape a).

Definition exists_ (w : world) (n : string) : bool :=
  match w !! n with
  | Some _ => true
  | None => false
  end.

Definition find_field (w : world) (table f : string) : option Field :=
  match w !! table with
  | Some it => List.find (fun fld => String.eqb (name fld) f) (fields it)
  | None => None
  end.

Definition not_found {A} (n : string) : result A :=
  Raise (ExecuteError ("ERROR 000732: Dataset " +:+ n +:+ " does not exist")).

Definition already_exists {A} (n : string) : result A :=
  Raise (ExecuteError ("ERROR 000725: Output " +:+ n +:+ " already exists")).

Definition get_count (w : world) (n : string) : result Z :=
  match w !! n with
  | Some it => Ok (Z.of_nat (length (active it)))
  | None => not_found n
  end.

Definition list_fields (w : world) (n : string) : result (list Field) :=
  match w !! n with
  | Some it => Ok (fields it)
  | None => not_found n
  end.

Definition delete_ (n : string) (w : world) : result unit * world :=
  match w !! n with
  | Some _ => (Ok tt, delete n w)
  | None => (not_found n, w)
  end.

Definition make_feature_layer (e : Env) (ds n clause : string) (w : world)
  : result unit * world :=
  match w !! ds with
  | None => (not_found ds, w)
  | Some it =>
      if exists_ w n && negb (overwriteOutput e) then (already_exists n, w)
      else
        match eval_where clause with
        | None => (Raise (ExecuteError "ERROR 000358: Invalid expression"), w)
        | Some p =>
            (Ok tt, <[n := {| fields := fields it;
                             rows := List.filter p (active it);
                             selection := None |}]> w)
        end
  end.

(** new selection of one layer: its rows that intersect a reference row *)
Definition select_in (ref : list feature) (w : world) (n : string) : option world :=
  match w !! n with
  | Some it =>
      Some (<[n := {| fields := fields it;
                      rows := rows it;
                      selection :=
                        Some (List.filter (fun r => existsb (intersects r) ref)
                                (rows it)) |}]> w)
  | None => None
  end.

Fixpoint select_all (ref : list feature) (ns : list string) (w : world) : option world :=
  match ns with
  | [] => Some w
  | n :: ns' =>
      match select_in ref w n with
      | Some w' => select_all ref ns' w'
      | None => None
      end
  end.

Definition select_layer_by_location (ns : list string)
    (overlap_type ref selection_type : string) (w : world) : result unit * world :=
  if negb (String.eqb overlap_type "INTERSECT"
           && String.eqb selection_type "NEW_SELECTION")
  then (Raise (ExecuteError "ERROR 000800: The value is not a member of the list"), w)
  else
    match w !! ref with
    | None => (not_found ref, w)
    | Some it =>
        match select_all (active it) ns w with
        | Some w' => (Ok tt, w')
        | None => (Raise (ExecuteError "ERROR 000732: Input layer does not exist"), w)
        end
    end.

(** the value of one output field for a row of table [src]: the first
    input field of the map that belongs to [src] *)
Definition mapped_value (src : string) (r : feature) (fm : FieldMap) : string :=
  match List.find (fun tf => String.eqb (fst tf) src) (inputFields fm) with
  | Some (_, f) => attribute f (attributes r)
  | None => ""
  end.

Definition mapped_row (fms : FieldMappings) (src : string) (r : feature) : feature :=
  {| shape := shape r;
     attributes := map (fun fm => (name (outputField fm), mapped_value src r fm)) fms |}.

Fixpoint merged_rows (fms : FieldMappings) (ns : list string) (w : world)
  : option (list feature) :=
  match ns with
  | [] => Some []
  | n :: ns' =>
      match w !! n, merged_rows fms ns' w with
      | Some it, Some rs => Some (map (mapped_row fms n) (active it) ++ rs)
      | _, _ => None
      end
  end.

Definition merge (e : Env) (ns : list string) (out : string) (fms : FieldMappings)
    (w : world) : result string * world :=
  match merged_rows fms ns w with
  | None => (Raise (ExecuteError "ERROR 000732: Input Datasets do not exist"), w)
  | Some rs =>
      if exists_ w out && negb (overwriteOutput e) then (already_exists out, w)
      else (Ok out, <[out := {| fields := map outputField fms;
                               rows := rs;
                               selection := None |}]> w)
  end.

Definition key (fs : list string) (r : feature) : list string :=
  map (fun f => attribute f (attributes r)) fs.

Definition same_key (k1 k2 : list string) : bool :=
  (length k1 =? length k2)%nat
  && forallb (fun p => String.eqb (fst p) (snd p)) (combine k1 k2).

(** keep the first row of every key; [seen] holds the keys so far *)
Fixpoint first_of_each (fs : list string) (seen : list (list string))
    (rs : list feature) : list feature :=
  match rs with
  | [] => []
  | r :: rs' =>
      if existsb (same_key (key fs r)) seen then first_of_each fs seen rs'
      else r :: first_of_each fs (key fs r :: seen) rs'
  end.

Definition delete_identical (n : string) (fs : list string) (w : world)
  : result unit * world :=
  match w !! n with
  | None => (not_found n, w)
  | Some it =>
      (Ok tt, <[n := {| fields := fields it;
                       rows := first_of_each fs [] (rows it);
                       selection := None |}]> w)
  end.

Definition arcpy : Arcpy world :=
  {| arcpy_Exists := fun _ w n => exists_ w n;
     arcpy_find_field := fun _ w t f => find_field w t f;
     arcpy_default_field := {| name := ""; aliasName := ""; type := "String" |};
     arcpy_default_rule := "First";
     arcpy_GetCount := fun _ w n => get_count w n;
     arcpy_ListFields := fun _ w n => list_fields w n;
     arcpy_Delete := fun _ n w => delete_ n w;
     arcpy_MakeFeatureLayer := make_feature_layer;
     arcpy_SelectLayerByLocation := fun _ => select_layer_by_location;
     arcpy_Merge := merge;
     arcpy_DeleteIdentical := fun _ n fs w => delete_identical n fs w |}.

(** *** A small geodatabase under [/gis/Default.gdb] *)

Definition text (n : string) : Field :=
  {| name := n; aliasName := n; type := "String" |}.

Definition parcels_fc : item :=
  {| fields := [text "PARCEL_NUMBER"];
     rows := [ {| shape := [1; 2]%nat;
                  attributes := [("PARCEL_NUMBER", "6195400110")] |};
               {| shape := [7]%nat;
                  attributes := [("PARCEL_NUMBER", "0000000001")] |} ];
     selection := None |}.

(** the catchment class has no [DocLink] field *)
Definition catchment_fc : item :=
  {| fields := [text "OrigPlan"];
     rows := [ {| shape := [1]%nat; attributes := [("OrigPlan", "P-1")] |};
               {| shape := [2; 3]%nat; attributes := [("OrigPlan", "P-2")] |};
               {| shape := [8]%nat; attributes := [("OrigPlan", "P-9")] |} ];
     selection := None |}.

Definition cleanout_fc : item :=
  {| fields := [text "OrigPlan"; text "DocLink"];
     rows := [ {| shape := [2]%nat;
                  attributes := [("OrigPlan", "P-2"); ("DocLink", "d2")] |};
               {| shape := [1]%nat;
                  attributes := [("OrigPlan", "P-3"); ("DocLink", "d3")] |};
               {| shape := [1; 2]%nat;
                  attributes := [("OrigPlan", "P-4"); ("DocLink", "d4")] |};
               {| shape := [9]%nat;
                  attributes := [("OrigPlan", "P-5"); ("DocLink", "d5")] |} ];
     selection := None |}.

Definition gdb : world :=
  <["/gis/Default.gdb/Parcels" := parcels_fc]>
  (<["/gis/Default.gdb/Storm Catchment" := catchment_fc]>
  (<["/gis/Default.gdb/Storm Cleanout" := cleanout_fc]> ∅)).

Definition env0 : Env :=
  {| workspace := None; scratchWorkspace := None;
     overwriteOutput := false; parallelProcessingFactor := None |}.

Definition st0 : @state world := {| env := env0; store := gdb |}.

Definition posix : OsPath := posixpath.os_path "/gis".

(** the script with its default arguments, but for the where clause *)
Definition run_where (expression : string) : M string :=
  @run_of2 posix world arcpy expression "Default.gdb"
    "Storm Catchment" "Storm Cleanout" "Parcels" "OF_property_edit" None.

(** the run of the script on the small geodatabase *)
Definition run0 : M string := run_where "PARCEL_NUMBER = '6195400110'".

Definition out0 : string := "/gis/Default.gdb/OF_property_edit".

(** the two storm classes as sources of a plan *)
Definition sources : list string :=
  ["/gis/Default.gdb/Storm Catchment"; "/gis/Default.gdb/Storm Cleanout"].

(** a geodatabase without anything *)
Definition st_empty : @state world := {| env := env0; store := ∅ |}.

(** a geodatabase without the catchment class *)
Definition st_no_catchment : @state world :=
  {| env := env0; store := delete "/gis/Default.gdb/Storm Catchment" gdb |}.

(** the small geodatabase with an output left by an earlier run *)
Definition stale_fc : item :=
  {| fields := [text "OrigPlan"];
     rows := [ {| shape := [5]%nat; attributes := [("OrigPlan", "OLD")] |} ];
     selection := None |}.

Definition st_stale : @state world :=
  {| env := env0; store := <[out0 := stale_fc]> gdb |}.

(** a store like the reference store, but which reports no field for
    any dataset *)
Definition arcpy_no_schema : Arcpy world :=
  {| arcpy_Exists := fun _ w n => exists_ w n;
     arcpy_find_field := fun _ w t f => find_field w t f;
     arcpy_default_field := {| name := ""; aliasName := ""; type := "String" |};
     arcpy_default_rule := "First";
     arcpy_GetCount := fun _ w n => get_count w n;
     arcpy_ListFields := fun _ _ _ => Ok [];
     arcpy_Delete := fun _ n w => delete_ n w;
     arcpy_MakeFeatureLayer := make_feature_layer;
     arcpy_SelectLayerByLocation := fun _ => select_layer_by_location;
     arcpy_Merge := merge;
     arcpy_DeleteIdentical := fun _ n fs w => delete_identical n fs w |}.

Definition run_no_schema : M string :=
  @run_of2 posix world arcpy_no_schema "PARCEL_NUMBER = '6195400110'"
    "Default.gdb" "Storm Catchment" "Storm Cleanout" "Parcels"
    "OF_property_edit" None.

End RefStore.

(** ** A store of names

    A lighter store to run the script on: it knows which names exist and
    nothing of what is under them.  Every table has every field, a count
    is the number of names, and a where clause is accepted when it is
    empty or has an equals sign. *)
Module NameStore.

Definition world := list string.

Definition exists_ (w : world) (n : string) : bool := Py.contains n w.

Definition remove (n : string) (w : world) : world :=
  List.filter (fun m => negb (String.eqb m n)) w.

Definition not_found {A} (n : string) : result A :=
  Raise (ExecuteError ("ERROR 000732: Dataset " +:+ n +:+ " does not exist")).

Definition delete_ (n : string) (w : world) : result unit * world :=
  if exists_ w n then (Ok tt, remove n w) else (not_found n, w).

Definition make_feature_layer (ds n clause : string) (w : world)
  : result unit * world :=
  if negb (exists_ w ds) then (not_found ds, w)
  else if String.eqb clause "" || Py.has_char "="%char clause
       then (Ok tt, n :: remove n w)
       else (Raise (ExecuteError "ERROR 000358: Invalid expression"), w).

Definition select_layer_by_location (ns : list string) (ref : string) (w : world)
  : result unit * world :=
  if forallb (exists_ w) (ref :: ns) then (Ok tt, w) else (not_found ref, w).

Definition merge (ns : list string) (out : string) (w : world)
  : result string * world :=
  if forallb (exists_ w) ns then (Ok out, out :: remove out w)
  else (Raise (ExecuteError "ERROR 000732: Input Datasets do not exist"), w).

Definition field (n : string) : Field :=
  {| name := n; aliasName := n; type := "String" |}.

Definition arcpy : Arcpy world :=
  {| arcpy_Exists := fun _ w n => exists_ w n;
     arcpy_find_field := fun _ w t f => if exists_ w t then Some (field f) else None;
     arcpy_default_field := field "";
     arcpy_default_rule := "First";
     arcpy_GetCount := fun _ w n =>
       if exists_ w n then Ok (Z.of_nat (length w)) else not_found n;
     arcpy_ListFields := fun _ w n =>
       if exists_ w n then Ok [field "OrigPlan"; field "DocLink"] else not_found n;
     arcpy_Delete := fun _ n w => delete_ n w;
     arcpy_MakeFeatureLayer := fun _ ds n clause w => make_feature_layer ds n clause w;
     arcpy_SelectLayerByLocation := fun _ ns _ ref _ w =>
       select_layer_by_location ns ref w;
     arcpy_Merge := fun _ ns out _ w => merge ns out w;
     arcpy_DeleteIdentical := fun _ n _ w =>
       if exists_ w n then (Ok tt, w) else (not_found n, w) |}.

(** the same store, but no table has the field [DocLink] *)
Definition arcpy_without_doclink : Arcpy world :=
  {| arcpy_Exists := fun _ w n => exists_ w n;
     arcpy_find_field := fun _ w t f =>
       if String.eqb f "DocLink" then None
       else if exists_ w t then Some (field f) else None;
     arcpy_default_field := field "";
     arcpy_default_rule := "First";
     arcpy_GetCount := fun _ w n =>
       if exists_ w n then Ok (Z.of_nat (length w)) else not_found n;
     arcpy_ListFields := fun _ w n =>
       if exists_ w n then Ok [field "OrigPlan"] else not_found n;
     arcpy_Delete := fun _ n w => delete_ n w;
     arcpy_MakeFeatureLayer := fun _ ds n clause w => make_feature_layer ds n clause w;
     arcpy_SelectLayerByLocation := fun _ ns _ ref _ w =>
       select_layer_by_location ns ref w;
     arcpy_Merge := fun _ ns out _ w => merge ns out w;
     arcpy_DeleteIdentical := fun _ n _ w =>
       if exists_ w n then (Ok tt, w) else (not_found n, w) |}.

(** the three classes of the small geodatabase, by name *)
Definition st0 : @state world :=
  {| env := RefStore.env0;
     store := ["/gis/Default.gdb/Parcels"; "/gis/Default.gdb/Storm Catchment";
               "/gis/Default.gdb/Storm Cleanout"] |}.

Definition run_where (expression : string) : M string :=
  @run_of2 RefStore.posix world arcpy expression "Default.gdb"
    "Storm Catchment" "Storm Cleanout" "Parcels" "OF_property_edit" None.

Definition run0 : M string := run_where "PARCEL_NUMBER = '6195400110'".


End NameStore.

(** ** A reference interpreter

    A parser for command lines made of declared option strings, each
    stored option followed by its value; anything else exits with the
    status 2.  Standard output takes every line, or is closed. *)
Module RefCli.

Fixpoint lstrip_dashes (s : string) : string :=
  match s with
  | String "-" s' => lstrip_dashes s'
  | _ => s
  end.

Fixpoint dashes_to_underscores (s : string) : string :=
  match s with
  | EmptyString => EmptyString
  | String c s' =>
      String (if Ascii.eqb c "-" then "_"%char else c) (dashes_to_underscores s')
  end.

(** the attribute of an argument: [dest] when given, and otherwise the
    first long option string without its dashes *)
Definition dest_of (a : argparse.Argument) : string :=
  match argparse.dest a with
  | Some d => d
  | None =>
      match List.find (fun o => Py.startswith o "--") (argparse.option_strings a),
            argparse.option_strings a with
      | Some o, _ => dashes_to_underscores (lstrip_dashes o)
      | None, o :: _ => dashes_to_underscores (lstrip_dashes o)
      | None, [] => ""
      end
  end.

Definition set_value (d v : string) (ns : argparse.Namespace)
  : argparse.Namespace :=
  {| argparse.workspace :=
       if String.eqb d "workspace" then v else argparse.workspace ns;
     argparse.scratch :=
       if String.eqb d "scratch" then Some v else argparse.scratch ns;
     argparse.storm_catchment :=
       if String.eqb d "storm_catchment" then v else argparse.storm_catchment ns;
     argparse.storm_cleanout :=
       if String.eqb d "storm_cleanout" then v else argparse.storm_cleanout ns;
     argparse.parcels :=
       if String.eqb d "parcels" then v else argparse.parcels ns;
     argparse.expression :=
       if String.eqb d "expression" then v else argparse.expression ns;
     argparse.output :=
       if String.eqb d "output" then v else argparse.output ns;
     argparse.verbose := argparse.verbose ns |}.

Definition set_flag (d : string) (ns : argparse.Namespace) : argparse.Namespace :=
  {| argparse.workspace := argparse.workspace ns;
     argparse.scratch := argparse.scratch ns;
     argparse.storm_catchment := argparse.storm_catchment ns;
     argparse.storm_cleanout := argparse.storm_cleanout ns;
     argparse.parcels := argparse.parcels ns;
     argparse.expression := argparse.expression ns;
     argparse.output := argparse.output ns;
     argparse.verbose :=
       if String.eqb d "verbose" then true else argparse.verbose ns |}.

(** the namespace of the defaults *)
Definition defaults (p : argparse.ArgumentParser) : argparse.Namespace :=
  fold_left
    (fun ns a =>
       match argparse.default a with
       | Some v => set_value (dest_of a) v ns
       | None => ns
       end)
    (argparse.arguments p)
    {| argparse.workspace := ""; argparse.scratch := None;
       argparse.storm_catchment := ""; argparse.storm_cleanout := "";
       argparse.parcels := ""; argparse.expression := "";
       argparse.output := ""; argparse.verbose := false |}.

Fixpoint parse_from (args : list argparse.Argument) (argv : list string)
    (ns : argparse.Namespace) : argparse.parsed :=
  match argv with
  | [] => argparse.Parsed ns
  | o :: rest =>
      match List.find (fun a => Py.contains o (argparse.option_strings a)) args with
      | None => argparse.Exit 2
      | Some a =>
          match argparse.action a with
          | argparse.store_true => parse_from args rest (set_flag (dest_of a) ns)
          | argparse.store =>
              match rest with
              | v :: rest' => parse_from args rest' (set_value (dest_of a) v ns)
              | [] => argparse.Exit 2
              end
          end
      end
  end.

Definition parse_args (p : argparse.ArgumentParser) (argv : list string)
  : argparse.parsed :=
  parse_from (argparse.arguments p) argv (defaults p).

Definition interpreter : Interpreter :=
  {| argparse_parse_args := parse_args;
     print_raises := fun _ => None |}.

(** an interpreter whose standard output is closed *)
Definition interpreter_closed : Interpreter :=
  {| argparse_parse_args := parse_args;
     print_raises := fun _ => Some "I/O operation on closed file." |}.

(** the command line for the small geodatabase *)
Definition argv0 : list string :=
  ["--workspace"; "Default.gdb";
   "--storm-catchment"; "Storm Catchment";
   "--storm-cleanout"; "Storm Cleanout"].

Definition main0 (argv : list string) :=
  @main RefStore.posix NameStore.world NameStore.arcpy interpreter argv.

Definition script0 (sys_argv : list string) :=
  @script RefStore.posix NameStore.world NameStore.arcpy interpreter sys_argv.

(** the same with the standard output closed *)
Definition script_closed (sys_argv : list string) :=
  @script RefStore.posix NameStore.world NameStore.arcpy interpreter_closed
    sys_argv.

End RefCli.

(** * Vocabulary of the properties *)

(** A reference is URL-prefixed when it reads [scheme://...] with the
    scheme [http] or [https], in any letter case. *)
Definition url_prefixed (ref : string) : Prop :=
  exists scheme rest,
    ref = scheme +:+ "://" +:+ rest
    /\ (Py.lower scheme = "http" \/ Py.lower scheme = "https").

(** the test of the script, for comparison *)
Definition url_test (ref : string) : bool :=
  Py.startswith_any (Py.lower ref) ["http://"; "https://"].

(** the three components of a run *)
Definition outcome {S A} (x : result A * S * list (S * entry)) : result A :=
  fst (fst x).
Definition final {S A} (x : result A * S * list (S * entry)) : S :=
  snd (fst x).
Definition trace {S A} (x : result A * S * list (S * entry)) : list (S * entry) :=
  snd x.

(** the steps of a trace, without the states *)
Definition steps {S} (tr : list (S * entry)) : list entry := map snd tr.

(** *** Creation after clearing

    [cleared n before]: the steps just taken ([before] has the latest
    first) looked for [n] and found nothing, or found it and deleted it. *)
Definition cleared {S} (n : string) (before : list (S * entry)) : Prop :=
  match before with
  | (_, Called (cExists m) (Ok (VBool false))) :: _ => m = n
  | (_, Called (cDelete m) (Ok VNone))
      :: (_, Called (cExists m') (Ok (VBool true))) :: _ =>
      m = n /\ m' = n
  | _ => False
  end.

(** what a step creates, as told by [creates] *)
Definition created (creates : call -> option string) (e : entry) : option string :=
  match e with
  | Called c _ => creates c
  | Logged _ _ _ => None
  end.

(** every step that creates something comes right after its target was
    cleared *)
Fixpoint each_creation_cleared {S} (creates : call -> option string)
    (before tr : list (S * entry)) : Prop :=
  match tr with
  | [] => True
  | ev :: tr' =>
      match created creates (snd ev) with
      | Some n => cleared n before
      | None => True
      end
      /\ each_creation_cleared creates (ev :: before) tr'
  end.

(** the layer a call makes *)
Definition layer_of (c : call) : option string :=
  match c with
  | cMakeFeatureLayer _ n _ => Some n
  | _ => None
  end.

(** the dataset a call writes the merge to *)
Definition output_of (c : call) : option string :=
  match c with
  | cMerge _ out _ => Some out
  | _ => None
  end.

(** the calls of [MakeFeatureLayer] in a trace, in order *)
Definition layer_calls {S} (tr : list (S * entry)) : list call :=
  flat_map (fun ev =>
    match snd ev with
    | Called (cMakeFeatureLayer d n w) _ => [cMakeFeatureLayer d n w]
    | _ => []
    end) tr.

(** *** The end of a run *)

Definition dedup_warning : entry :=
  Logged WARNING "Field 'OrigPlan' not present in output; skipping DeleteIdentical" [].

(** what follows a merge that returned [p], in a run with outcome [r]:
    the fields of [p] are listed; with [OrigPlan] among them the run ends
    with [DeleteIdentical] on [p] and exactly that field, and returns [p]
    when that call returns; without it the run ends with the warning and
    returns [p]. *)
Definition after_merge (r : result string) (p : string) (rest : list entry) : Prop :=
  match rest with
  | Called (cListFields ds) o :: post =>
      ds = p
      /\ match o with
         | Ok (VFields fs) =>
             if Py.contains "OrigPlan" (map name fs)
             then exists d,
                    post = [Called (cDeleteIdentical p ["OrigPlan"]) d]
                    /\ r = map_result (fun _ => p) d
             else post = [dedup_warning] /\ r = Ok p
         | Ok _ => False
         | Raise e => post = [] /\ r = Raise e
         end
  | _ => False
  end.

(** a merge that returned *)
Definition merged (e : entry) : option string :=
  match e with
  | Called (cMerge _ _ _) (Ok (VStr p)) => Some p
  | _ => None
  end.

Fixpoint dedup_after_merge {S} (r : result string) (tr : list (S * entry)) : Prop :=
  match tr with
  | [] => True
  | ev :: tr' =>
      match merged (snd ev) with
      | Some p => after_merge r p (steps tr')
      | None => dedup_after_merge r tr'
      end
  end.

(** a run that returned [p] merged into [p] *)
Definition merged_into {S} (p : string) (tr : list (S * entry)) : Prop :=
  exists ev, In ev tr /\ merged (snd ev) = Some p.

(** *** Rules of a plan *)

(** a rule with the merge rule [First] whose candidates are sources of
    [inputs], each with the field of the rule, in the order of [inputs] *)
Definition first_in_order (inputs : list string) (fm : FieldMap) : Prop :=
  mergeRule fm = "First"
  /\ exists srcs,
       sublist srcs inputs
       /\ inputFields fm = map (fun src => (src, name (outputField fm))) srcs.

(** the merge of the pipeline: catchment before cleanout, and a plan of
    such rules *)
Definition merge_in_order (e : entry) : Prop :=
  match e with
  | Called (cMerge ins _ fms) _ =>
      ins = ["storm_catchment_layer"; "storm_cleanout_layer"]
      /\ Forall (first_in_order ins) fms
  | _ => True
  end.

(** a merge writes to the resolved output location *)
Definition merges_to (out_path : string) (e : entry) : Prop :=
  match e with
  | Called (cMerge _ out _) _ => out = out_path
  | _ => True
  end.

(** a look for [n], or a deletion of [n] *)
Definition check_of (n : string) (e : entry) : Prop :=
  exists o, e = Called (cExists n) o \/ e = Called (cDelete n) o.

Section Vocabulary.

Context {os_path : OsPath} {world : Type} {arcpy : Arcpy world}.

(** a source has a field when the lookup of [addInputField] finds it *)
Definition has_field (st : @state world) (src f : string) : bool :=
  match arcpy_find_field (env st) (store st) src f with
  | Some _ => true
  | None => false
  end.

(** a field that no source has *)
Definition missing (st : @state world) (inputs : list string) (f : string) : bool :=
  negb (existsb (fun src => has_field st src f) inputs).

(** the candidates of a rule: the sources that have the field, in the
    order of the inputs *)
Definition candidates (st : @state world) (inputs : list string) (f : string)
  : list (string * string) :=
  map (fun src => (src, f)) (List.filter (fun src => has_field st src f) inputs).

(** the error for a field that no source has *)
Definition not_found_in_any (f : string) (inputs : list string) : exn :=
  RuntimeError ("Field '" +:+ f +:+ "' not found in any input: "
                +:+ Py.repr_list inputs).

(** what the rule of a desired pair looks like *)
Definition rule_for (st : @state world) (inputs : list string)
    (fa : string * string) (fm : FieldMap) : Prop :=
  name (outputField fm) = fst fa
  /\ aliasName (outputField fm) = snd fa
  /\ mergeRule fm = "First"
  /\ inputFields fm = candidates st inputs (fst fa).

(** what building the plan gives: a rule for every desired pair, or the
    error for a field that no source has *)
Definition plan_outcome (st : @state world) (inputs : list string)
    (r : result FieldMappings) : Prop :=
  match r with
  | Ok fms =>
      Forall2 (rule_for st inputs) desired fms
      /\ (forall f, In f (map fst desired) -> missing st inputs f = false)
  | Raise e =>
      exists f, In f (map fst desired)
                /\ missing st inputs f = true
                /\ e = not_found_in_any f inputs
  end.

(** the settings of the execution context of a run *)
Definition scoped_env (workspace_gdb : string) (scratch_gdb : option string) : Env :=
  {| workspace := Some (abspath workspace_gdb);
     scratchWorkspace :=
       Some (match scratch_gdb with
             | Some s => if Py.truthy s then abspath s else abspath workspace_gdb
             | None => abspath workspace_gdb
             end);
     overwriteOutput := true;
     parallelProcessingFactor := Some "100%" |}.

(** the state in which the body of a run starts *)
Definition scoped (workspace_gdb : string) (scratch_gdb : option string)
    (st : @state world) : @state world :=
  {| env := scoped_env workspace_gdb scratch_gdb; store := store st |}.

(** the location the merge writes to *)
Definition out_path_of (workspace_gdb output_fc : string) : string :=
  if Py.truthy (dirname output_fc) then output_fc
  else join (abspath workspace_gdb) output_fc.

(** the one law of the store that the overwrite properties rest on: what
    [Delete] has deleted does not exist any more *)
Definition delete_removes : Prop :=
  forall e n w w',
    arcpy_Delete e n w = (Ok tt, w') -> arcpy_Exists e w' n = false.

(** a creating call runs on a store that has nothing under its target *)
Definition on_free_name (creates : call -> option string)
    (ev : @state world * entry) : Prop :=
  match snd ev with
  | Called c _ =>
      match creates c with
      | Some n => arcpy_Exists (env (fst ev)) (store (fst ev)) n = false
      | None => True
      end
  | Logged _ _ _ => True
  end.

(** a look records what the store answers *)
Definition look_is_true (ev : @state world * entry) : Prop :=
  match snd ev with
  | Called (cExists n) o =>
      o = Ok (VBool (arcpy_Exists (env (fst ev)) (store (fst ev)) n))
  | _ => True
  end.

(** *** Weakest preconditions

    [wp m Q st h]: run in the state [st] after the steps [h], the
    computation [m] ends with an outcome, a state and steps that
    satisfy [Q]. *)
Definition wp {A} (m : M A)
    (Q : result A -> @state world -> list (@state world * entry) -> Prop)
    (st : @state world) (h : list (@state world * entry)) : Prop :=
  Q (outcome (m st)) (final (m st)) (h ++ trace (m st)).

(** how a step carries on: with the rest, or with the error *)
Definition carry_on {A B} (k : A -> M B)
    (Q : result B -> @state world -> list (@state world * entry) -> Prop)
    (r : result A) (st : @state world) (h : list (@state world * entry)) : Prop :=
  match r with
  | Ok a => wp (k a) Q st h
  | Raise e => Q (Raise e) st h
  end.

(** *** Clearing a name

    The three ways in which [if arcpy.Exists(n): Delete(n)] goes. *)
Inductive clearing (n : string) (st : @state world)
  : result unit -> @state world -> list (@state world * entry) -> Prop :=
| clearing_absent :
    arcpy_Exists (env st) (store st) n = false ->
    clearing n st (Ok tt) st [(st, Called (cExists n) (Ok (VBool false)))]
| clearing_deleted w' :
    arcpy_Exists (env st) (store st) n = true ->
    arcpy_Delete (env st) n (store st) = (Ok tt, w') ->
    clearing n st (Ok tt) {| env := env st; store := w' |}
      [(st, Called (cExists n) (Ok (VBool true)));
       (st, Called (cDelete n) (Ok VNone))]
| clearing_failed e w' :
    arcpy_Exists (env st) (store st) n = true ->
    arcpy_Delete (env st) n (store st) = (Raise e, w') ->
    clearing n st (Raise e) {| env := env st; store := w' |}
      [(st, Called (cExists n) (Ok (VBool true)));
       (st, Called (cDelete n) (Raise e))].

End Vocabulary.


(** *** Failures, stages, and what came before a step *)

(** the exception that a step ended with *)
Definition failure (e : entry) : option exn :=
  match e with
  | Called _ (Raise x) => Some x
  | _ => None
  end.



(** [P before ev] holds of every step [ev] of a trace, where [before]
    has the steps taken until then, the latest first *)
Fixpoint each_after {S} (P : list (S * entry) -> S * entry -> Prop)
    (before tr : list (S * entry)) : Prop :=
  match tr with
  | [] => True
  | ev :: tr' => P before ev /\ each_after P (ev :: before) tr'
  end.

(** the stages of the workflow; looks and deletions prepare a stage and
    are none themselves *)
Inductive stage :=
| MakeLayer (out_layer : string)
| Select
| Count (layer : string)
| Diagnostics
| MergeOutput
| Schema
| Dedup
| DedupSkipped.

Definition stage_of (e : entry) : option stage :=
  match e with
  | Called (cMakeFeatureLayer _ n _) _ => Some (MakeLayer n)
  | Called (cSelectLayerByLocation _ _ _ _) _ => Some Select
  | Called (cGetCount l) _ => Some (Count l)
  | Logged INFO _ _ => Some Diagnostics
  | Called (cMerge _ _ _) _ => Some MergeOutput
  | Called (cListFields _) _ => Some Schema
  | Called (cDeleteIdentical _ _) _ => Some Dedup
  | Logged WARNING _ _ => Some DedupSkipped
  | Called (cExists _) _ => None
  | Called (cDelete _) _ => None
  end.

(** the stages of a trace, in order *)
Definition stages {S} (tr : list (S * entry)) : list stage :=
  flat_map (fun ev =>
    match stage_of (snd ev) with
    | Some s => [s]
    | None => []
    end) tr.

(** the stages of a whole run, but for the last one *)
Definition pipeline : list stage :=
  [MakeLayer "parcels_layer"; MakeLayer "storm_catchment_layer";
   MakeLayer "storm_cleanout_layer"; Select;
   Count "storm_catchment_layer"; Count "storm_cleanout_layer";
   Diagnostics; MergeOutput; Schema].

(** the names of the three layers *)
Definition layer_names : list string :=
  ["parcels_layer"; "storm_catchment_layer"; "storm_cleanout_layer"].

(** the selection of the storm layers by the parcels *)
Definition selection : call :=
  cSelectLayerByLocation ["storm_catchment_layer"; "storm_cleanout_layer"]
    "INTERSECT" "parcels_layer" "NEW_SELECTION".

(** every selection of a trace is that one *)
Definition selects_storm_by_parcels (e : entry) : Prop :=
  match e with
  | Called (cSelectLayerByLocation l o s t) _ =>
      cSelectLayerByLocation l o s t = selection
  | _ => True
  end.

(** a merge has the selection, made and successful, among the steps
    before it, and the three layers as well *)
Definition merge_after_selection {S} (before : list (S * entry)) (ev : S * entry)
  : Prop :=
  match snd ev with
  | Called (cMerge _ _ _) _ =>
      (exists s, In (s, Called selection (Ok VNone)) before)
      /\ (forall n, In n layer_names ->
          exists s d w, In (s, Called (cMakeFeatureLayer d n w) (Ok VNone)) before)
  | _ => True
  end.

(** the record of the diagnostics comes right after the two counts, and
    carries what they returned: catchment, then cleanout *)
Definition counts_logged {S} (before : list (S * entry)) (ev : S * entry) : Prop :=
  match snd ev with
  | Logged INFO msg args =>
      msg = "Selected %d catchment and %d cleanout features"
      /\ match before with
         | (s2, Called (cGetCount l2) (Ok (VInt b)))
             :: (s1, Called (cGetCount l1) (Ok (VInt a))) :: _ =>
             l1 = "storm_catchment_layer" /\ l2 = "storm_cleanout_layer"
             /\ args = [a; b] /\ s1 = fst ev /\ s2 = fst ev
         | _ => False
         end
  | _ => True
  end.


(** *** What [main] did *)

(** the lines that reached standard output *)
Definition printed {S} (acts : list (act S)) : list string :=
  flat_map (fun a =>
    match a with
    | Print line None => [line]
    | _ => []
    end) acts.

(** the steps of the workflow among the acts of [main] *)
Definition ran {S} (acts : list (act S)) : list (S * entry) :=
  flat_map (fun a =>
    match a with
    | Ran ev => [ev]
    | _ => []
    end) acts.

(** the exceptions that [main] logged *)
Definition logged_exceptions {S} (acts : list (act S)) : list caught :=
  flat_map (fun a =>
    match a with
    | LoggedException _ exc => [exc]
    | _ => []
    end) acts.

Section VocabularyOfRuns.

Context {os_path : OsPath} {world : Type} {arcpy : Arcpy world}.

(** a deletion is of a name that the store has *)
Definition deletes_what_exists (targets : list string)
    (ev : @state world * entry) : Prop :=
  match snd ev with
  | Called (cDelete n) _ =>
      In n targets /\ arcpy_Exists (env (fst ev)) (store (fst ev)) n = true
  | _ => True
  end.


(** the run of the workflow that [main] makes for a namespace *)
Definition run_for (args : argparse.Namespace) : M string :=
  run_of2 (argparse.expression args) (argparse.workspace args)
    (argparse.storm_catchment args) (argparse.storm_cleanout args)
    (argparse.parcels args) (argparse.output args) (argparse.scratch args).

(** a step of [ensure_layer]: a look at the layer, its deletion, or
    its making from the dataset with the where clause *)
Definition step_of_ensure_layer (dataset_path layer_name where_clause : string)
    (e : entry) : Prop :=
  exists o,
    e = Called (cExists layer_name) o
    \/ e = Called (cDelete layer_name) o
    \/ e = Called (cMakeFeatureLayer dataset_path layer_name where_clause) o.

End VocabularyOfRuns.
(** * Properties *)

(** ** Strings *)

Lemma startswith_app (s p : string) :
  Py.startswith s p = true <-> exists rest, s = p +:+ rest.
Proof.
  revert s. induction p as [|a p IH]; intros s; simpl.
  - split; [intros _; exists s; reflexivity | reflexivity].
  - destruct s as [|b s].
    + split; [discriminate | intros [rest H]; discriminate].
    + rewrite andb_true_iff, Ascii.eqb_eq, IH. split.
      * intros [-> [rest ->]]. exists rest. reflexivity.
      * intros [rest H]. injection H as -> ->. split; [reflexivity | eauto].
Qed.

Lemma lower_app (a b : string) :
  Py.lower (a +:+ b) = Py.lower a +:+ Py.lower b.
Proof. induction a as [|c a IH]; simpl; [reflexivity | now rewrite IH]. Qed.

(** Lowering never produces a colon or a slash out of another character. *)
Lemma lower_char_colon (c : ascii) : Py.lower_char c = ":"%char -> c = ":"%char.
Proof.
  destruct c as [[] [] [] [] [] [] [] []]; vm_compute; intros H;
    first [reflexivity | discriminate H].
Qed.

Lemma lower_char_slash (c : ascii) : Py.lower_char c = "/"%char -> c = "/"%char.
Proof.
  destruct c as [[] [] [] [] [] [] [] []]; vm_compute; intros H;
    first [reflexivity | discriminate H].
Qed.

Lemma lower_has_colon (s : string) :
  Py.has_char ":"%char (Py.lower s) = Py.has_char ":"%char s.
Proof.
  induction s as [|c s IH]; simpl; [reflexivity |].
  rewrite IH. f_equal.
  destruct (Ascii.eqb_spec (Py.lower_char c) ":"%char) as [E | N];
    destruct (Ascii.eqb_spec c ":"%char) as [E' | N']; try reflexivity.
  - apply lower_char_colon in E. contradiction.
  - subst c. exfalso. apply N. reflexivity.
Qed.

(** Two texts that agree up to their first occurrence of [c] have the
    same part before it. *)
Lemma first_occurrence (c : ascii) (a b x y : string) :
  Py.has_char c a = false -> Py.has_char c b = false ->
  a +:+ String c x = b +:+ String c y -> a = b.
Proof.
  revert b. induction a as [|p a IH]; intros [|q b]; simpl; intros Ha Hb H.
  - reflexivity.
  - injection H as <- _. now rewrite Ascii.eqb_refl in Hb.
  - injection H as -> _. now rewrite Ascii.eqb_refl in Ha.
  - injection H as -> H. apply orb_false_iff in Ha as [_ Ha].
    apply orb_false_iff in Hb as [_ Hb]. f_equal. eauto.
Qed.

(** ** References with a URL prefix *)

Lemma url_test_of_prefixed (ref : string) : url_prefixed ref -> url_test ref = true.
Proof.
  intros (scheme & rest & -> & H). unfold url_test, Py.startswith_any.
  rewrite lower_app. cbn [existsb]. rewrite orb_false_r.
  apply orb_true_iff. destruct H as [H | H]; [left | right]; rewrite H;
    apply startswith_app; exists (Py.lower rest); reflexivity.
Qed.

Lemma prefixed_of_url_test (ref : string) : url_test ref = true -> url_prefixed ref.
Proof.
  unfold url_test, Py.startswith_any. cbn [existsb]. rewrite orb_false_r.
  intros H. apply orb_true_iff in H as [H | H];
    apply startswith_app in H as [r H].
  - destruct ref as [|c1 [|c2 [|c3 [|c4 [|c5 [|c6 [|c7 rest]]]]]]];
      cbn [Py.lower String.append] in H; try discriminate H.
    injection H as E1 E2 E3 E4 E5 E6 E7 _.
    apply lower_char_colon in E5. apply lower_char_slash in E6, E7. subst c5 c6 c7.
    exists (String c1 (String c2 (String c3 (String c4 EmptyString)))), rest.
    split; [reflexivity | left]. cbn [Py.lower]. congruence.
  - destruct ref as [|c1 [|c2 [|c3 [|c4 [|c5 [|c6 [|c7 [|c8 rest]]]]]]]];
      cbn [Py.lower String.append] in H; try discriminate H.
    injection H as E1 E2 E3 E4 E5 E6 E7 E8 _.
    apply lower_char_colon in E6. apply lower_char_slash in E7, E8. subst c6 c7 c8.
    exists (String c1 (String c2 (String c3 (String c4 (String c5 EmptyString))))), rest.
    split; [reflexivity | right]. cbn [Py.lower]. congruence.
Qed.

Lemma url_test_iff (ref : string) : url_test ref = true <-> url_prefixed ref.
Proof. split; [apply prefixed_of_url_test | apply url_test_of_prefixed]. Qed.

(** A reference [scheme://...] whose scheme has no colon passes the test
    only for the two schemes. *)
Lemma url_test_scheme (scheme rest : string) :
  Py.has_char ":"%char scheme = false ->
  url_test (scheme +:+ "://" +:+ rest) = true ->
  Py.lower scheme = "http" \/ Py.lower scheme = "https".
Proof.
  intros Hc H. apply url_test_iff in H as (s' & r' & E & H).
  assert (Hs' : Py.has_char ":"%char s' = false).
  { rewrite <- lower_has_colon. destruct H as [-> | ->]; reflexivity. }
  apply first_occurrence in E; [subst s'; exact H | exact Hc | exact Hs'].
Qed.

(** ** [resolve_dataset] *)

Section Resolve.

Context {os_path : OsPath}.

(** C4 -- a reference that is an absolute path or URL-prefixed is
    returned unchanged; every other reference is joined to the
    workspace root. *)
Theorem resolve_dataset_passthrough_or_join (ref ws : string) :
  (isabs ref = true \/ url_prefixed ref -> resolve_dataset ref ws = ref)
  /\ (isabs ref = false -> ~ url_prefixed ref ->
      resolve_dataset ref ws = join ws ref).
Proof.
  unfold resolve_dataset. fold (url_test ref). split.
  - intros [H | H]; [rewrite H; reflexivity |].
    apply url_test_iff in H. rewrite H, orb_true_r. reflexivity.
  - intros Habs Hurl. rewrite Habs.
    destruct (url_test ref) eqn:E; [| reflexivity].
    exfalso. apply Hurl, url_test_iff, E.
Qed.

(** C10 -- the URL test ignores letter case: a reference whose lowered
    form begins with [http://] or [https://] is returned unchanged,
    as is [HTTPS://host/fc]; a reference that is not absolute and
    carries any other scheme, as [ftp://host/fc], is joined to the
    workspace root. *)
Theorem resolve_dataset_url_case_insensitive (ref ws : string) :
  (Py.startswith (Py.lower ref) "http://" = true
   \/ Py.startswith (Py.lower ref) "https://" = true ->
   resolve_dataset ref ws = ref)
  /\ (forall scheme rest,
        ref = scheme +:+ "://" +:+ rest ->
        Py.has_char ":"%char scheme = false ->
        Py.lower scheme <> "http" -> Py.lower scheme <> "https" ->
        isabs ref = false ->
        resolve_dataset ref ws = join ws ref)
  /\ resolve_dataset "HTTPS://host/fc" ws = "HTTPS://host/fc"
  /\ (isabs "ftp://host/fc" = false ->
      resolve_dataset "ftp://host/fc" ws = join ws "ftp://host/fc").
Proof.
  assert (Hother : forall r scheme rest,
    r = scheme +:+ "://" +:+ rest ->
    Py.has_char ":"%char scheme = false ->
    Py.lower scheme <> "http" -> Py.lower scheme <> "https" ->
    isabs r = false -> resolve_dataset r ws = join ws r).
  { intros r scheme rest -> Hc N1 N2 Habs. unfold resolve_dataset.
    rewrite Habs. fold (url_test (scheme +:+ "://" +:+ rest)).
    destruct (url_test _) eqn:E; [| reflexivity].
    apply url_test_scheme in E; [| exact Hc]. destruct E; contradiction. }
  split; [| split; [| split]].
  - intros H. unfold resolve_dataset, Py.startswith_any. cbn [existsb].
    destruct H as [-> | ->]; rewrite ?orb_true_r; reflexivity.
  - apply Hother.
  - unfold resolve_dataset.
    replace (Py.startswith_any _ _) with true by reflexivity.
    rewrite orb_true_r. reflexivity.
  - intros Habs. apply (Hother _ "ftp" "host/fc");
      [reflexivity | reflexivity | discriminate | discriminate | exact Habs].
Qed.

End Resolve.

(** On [posixpath]: an absolute path is kept and a bare name is joined. *)
Lemma resolve_dataset_passthrough_or_join_witness :
  @resolve_dataset RefStore.posix "/data/a.gdb/Parcels" "/gis/Default.gdb"
    = "/data/a.gdb/Parcels"
  /\ @resolve_dataset RefStore.posix "Parcels" "/gis/Default.gdb"
    = "/gis/Default.gdb/Parcels".
Proof.
  split.
  - apply (proj1 (@resolve_dataset_passthrough_or_join RefStore.posix
                    "/data/a.gdb/Parcels" "/gis/Default.gdb")).
    left. reflexivity.
  - apply (proj2 (@resolve_dataset_passthrough_or_join RefStore.posix
                    "Parcels" "/gis/Default.gdb")).
    + reflexivity.
    + intros H. apply url_test_iff in H. discriminate H.
Defined.

(** On [posixpath]: mixed-case [HtTp://] passes, [ftp://] is joined. *)
Lemma resolve_dataset_url_case_insensitive_witness :
  @resolve_dataset RefStore.posix "HtTp://host/fc" "/gis/Default.gdb"
    = "HtTp://host/fc"
  /\ @resolve_dataset RefStore.posix "ftp://host/fc" "/gis/Default.gdb"
    = "/gis/Default.gdb/ftp://host/fc".
Proof.
  split.
  - apply (proj1 (@resolve_dataset_url_case_insensitive RefStore.posix
                    "HtTp://host/fc" "/gis/Default.gdb")).
    left. reflexivity.
  - apply (proj2 (proj2 (proj2 (@resolve_dataset_url_case_insensitive
                    RefStore.posix "ftp://host/fc" "/gis/Default.gdb")))).
    reflexivity.
Defined.

(** ** Running the monad *)

Section Running.

Context {world : Type}.
Local Abbreviation M := (@M world).

Lemma bind_ok {A B} (m : M A) (k : A -> M B) st a st1 t1 :
  m st = (Ok a, st1, t1) ->
  bind m k st = (let '(r, st2, t2) := k a st1 in (r, st2, t1 ++ t2)).
Proof. unfold bind. intros ->. destruct (k a st1) as [[r st2] t2]. reflexivity. Qed.

Lemma bind_raise {A B} (m : M A) (k : A -> M B) st e st1 t1 :
  m st = (Raise e, st1, t1) -> bind m k st = (Raise e, st1, t1).
Proof. unfold bind. intros ->. reflexivity. Qed.

Lemma for_cons {X S} (x : X) (xs : list X) (body : X -> S -> M S) (s : S) :
  for_ (x :: xs) body s = bind (body x s) (for_ xs body).
Proof. reflexivity. Qed.

(** The loop rule for a body that neither raises, nor changes the
    state, nor calls anything: an invariant over the items done. *)
Lemma for_invariant {X S} (I : list X -> S -> Prop) (body : X -> S -> M S)
    (st : state) (xs : list X) :
  (forall done x s, I done s ->
     exists s', body x s st = (Ok s', st, []) /\ I (done ++ [x]) s') ->
  forall s, I [] s ->
  exists s', for_ xs body s st = (Ok s', st, []) /\ I xs s'.
Proof.
  intros Hbody.
  enough (H : forall done s, I done s ->
            exists s', for_ xs body s st = (Ok s', st, []) /\ I (done ++ xs) s')
    by (intros s Hs; apply (H [] s Hs)).
  induction xs as [|x xs IH]; intros done s Hs.
  - exists s. rewrite app_nil_r. split; [reflexivity | exact Hs].
  - destruct (Hbody done x s Hs) as (s1 & E1 & H1).
    destruct (IH (done ++ [x]) s1 H1) as (s2 & E2 & H2).
    exists s2. rewrite for_cons, (bind_ok _ _ _ _ _ _ E1), E2.
    rewrite <- app_assoc in H2. split; [reflexivity | exact H2].
Qed.

End Running.

(** ** [build_field_mappings] *)

Section Plan.

Context {world : Type} {arcpy : Arcpy world}.

Lemma candidates_snoc (st : state) (done : list string) (src f : string) :
  candidates st (done ++ [src]) f
  = candidates st done f ++ (if has_field st src f then [(src, f)] else []).
Proof.
  unfold candidates. rewrite List.filter_app, map_app. cbn [List.filter].
  destruct (has_field st src f); reflexivity.
Qed.

(** The inner loop: it never fails, it adds the candidates in the order
    of the inputs and it reports whether there was one. *)
Lemma add_inputs_run (f : string) (inputs : list string) (st : state)
    (fmap : FieldMap) :
  exists fmap',
    for_ inputs (fun src '(fmap, added_any) =>
        try_except
          (bind (addInputField fmap src f) (fun fmap' => ret (fmap', true)))
          (fun _ => ret (fmap, added_any)))
      (fmap, false) st
    = (Ok (fmap', negb (missing st inputs f)), st, [])
    /\ inputFields fmap' = inputFields fmap ++ candidates st inputs f
    /\ mergeRule fmap' = mergeRule fmap.
Proof.
  pose (I := fun (done : list string) (s : FieldMap * bool) =>
    snd s = negb (missing st done f)
    /\ inputFields (fst s) = inputFields fmap ++ candidates st done f
    /\ mergeRule (fst s) = mergeRule fmap).
  match goal with
  | |- context [for_ inputs ?b _ st] =>
      destruct (for_invariant I b st inputs) with (s := (fmap, false))
        as ([fmap' added'] & E & Ha & Hi & Hm)
  end.
  - intros done src [fm added] (Ha & Hi & Hm). cbn [fst snd] in Ha, Hi, Hm.
    unfold try_except, bind, addInputField, ret, I.
    rewrite candidates_snoc. unfold missing in *. rewrite negb_involutive in *.
    rewrite existsb_app. cbn [existsb]. rewrite orb_false_r.
    unfold has_field at 2 3.
    destruct (arcpy_find_field (env st) (store st) src f) as [fld|].
    + eexists. split; [reflexivity |]. cbn [fst snd inputFields mergeRule].
      rewrite orb_true_r, Hi, <- app_assoc. auto.
    + eexists. split; [reflexivity |]. cbn [fst snd].
      rewrite orb_false_r, app_nil_r. auto.
  - unfold I, missing, candidates. cbn. rewrite app_nil_r. auto.
  - cbn [fst snd] in Ha, Hi, Hm. subst added'. eauto.
Qed.

(** One turn of the outer loop: an error for a field that no source
    has, one more rule otherwise. *)
Lemma build_field_mappings_run (inputs : list string) (st : state) :
  match List.find (fun fa => missing st inputs (fst fa)) desired with
  | Some fa =>
      build_field_mappings inputs st
      = (Raise (not_found_in_any (fst fa) inputs), st, [])
  | None =>
      exists fms,
        build_field_mappings inputs st = (Ok fms, st, [])
        /\ Forall2 (rule_for st inputs) desired fms
  end.
Proof.
  unfold build_field_mappings.
  match goal with
  | |- context [for_ desired ?b []] => set (body := b)
  end.
  assert (Hstep : forall fa fms,
    if missing st inputs (fst fa)
    then body fa fms st = (Raise (not_found_in_any (fst fa) inputs), st, [])
    else exists fm, body fa fms st = (Ok (fms ++ [fm]), st, [])
                    /\ rule_for st inputs fa fm).
  { intros [f a] fms. subst body. cbv beta iota. cbn [fst].
    destruct (add_inputs_run f inputs st new_FieldMap) as (fmap & E & Hi & _).
    rewrite (bind_ok _ _ _ _ _ _ E).
    destruct (missing st inputs f); cbn.
    - reflexivity.
    - eexists. split; [reflexivity |].
      unfold rule_for. cbn. rewrite Hi. auto. }
  clearbody body.
  enough (H : forall acc,
    match List.find (fun fa => missing st inputs (fst fa)) desired with
    | Some fa =>
        for_ desired body acc st
        = (Raise (not_found_in_any (fst fa) inputs), st, [])
    | None =>
        exists fms,
          for_ desired body acc st = (Ok (acc ++ fms), st, [])
          /\ Forall2 (rule_for st inputs) desired fms
    end) by apply (H []).
  generalize desired as ds.
  induction ds as [|fa ds IH]; intros acc; cbn [List.find].
  - exists []. rewrite app_nil_r. split; [reflexivity | constructor].
  - rewrite for_cons. specialize (Hstep fa acc).
    destruct (missing st inputs (fst fa)).
    + apply bind_raise, Hstep.
    + destruct Hstep as (fm & E & Hfm). rewrite (bind_ok _ _ _ _ _ _ E).
      specialize (IH (acc ++ [fm])).
      destruct (List.find _ ds) as [fb|].
      * rewrite IH. reflexivity.
      * destruct IH as (fms & E' & Hfms). exists (fm :: fms).
        rewrite E', <- app_assoc. split; [reflexivity |].
        constructor; assumption.
Qed.

Lemma missing_true (st : state) (inputs : list string) (f : string) :
  missing st inputs f = true
  <-> forall src, In src inputs -> has_field st src f = false.
Proof.
  unfold missing. rewrite negb_true_iff. split.
  - intros H src Hin. destruct (has_field st src f) eqn:E; [| reflexivity].
    assert (existsb (fun src => has_field st src f) inputs = true) as H'
      by (apply existsb_exists; eauto).
    congruence.
  - intros H. destruct (existsb _ inputs) eqn:E; [| reflexivity].
    apply existsb_exists in E as (src & Hin & E). rewrite (H src Hin) in E.
    discriminate.
Qed.

Lemma in_candidates (st : state) (inputs : list string) (f src : string) :
  In src (map fst (candidates st inputs f))
  <-> In src inputs /\ has_field st src f = true.
Proof.
  unfold candidates. rewrite map_map. cbn [fst]. rewrite List.map_id.
  apply (filter_In (fun s => has_field st s f)).
Qed.

(** Building the plan makes no call and leaves the state alone; what
    it gives is told by [plan_outcome]. *)
Lemma build_field_mappings_outcome (inputs : list string) (st : state) :
  exists r,
    build_field_mappings inputs st = (r, st, []) /\ plan_outcome st inputs r.
Proof.
  pose proof (build_field_mappings_run inputs st) as H.
  destruct (List.find _ desired) as [fa|] eqn:E.
  - exists (Raise (not_found_in_any (fst fa) inputs)). split; [exact H |].
    apply find_some in E as [Hin Hm]. exists (fst fa).
    split; [apply in_map, Hin | auto].
  - destruct H as (fms & H & Hr). exists (Ok fms).
    split; [exact H |]. split; [exact Hr |].
    intros f Hin. apply in_map_iff in Hin as (fa & <- & Hin).
    apply (find_none _ _ E fa Hin).
Qed.

Lemma rules_names (st : state) (inputs : list string)
    (ds : list (string * string)) (fms : FieldMappings) :
  Forall2 (rule_for st inputs) ds fms ->
  map (fun fm => (name (outputField fm), aliasName (outputField fm))) fms = ds.
Proof.
  induction 1 as [|[f a] fm ds fms (Hn & Ha & _) _ IH]; cbn [map].
  - reflexivity.
  - cbn [fst snd] in Hn, Ha. rewrite Hn, Ha, IH. reflexivity.
Qed.

Lemma rules_candidates (st : state) (inputs : list string)
    (ds : list (string * string)) (fms : FieldMappings) :
  Forall2 (rule_for st inputs) ds fms ->
  Forall (fun fm =>
    mergeRule fm = "First"
    /\ inputFields fm = candidates st inputs (name (outputField fm))) fms.
Proof.
  induction 1 as [|fa fm ds fms (Hn & _ & Hm & Hi) _ IH]; constructor.
  - rewrite Hn. auto.
  - exact IH.
Qed.

Lemma filter_sublist {A} (f : A -> bool) (l : list A) :
  sublist (List.filter f l) l.
Proof.
  induction l as [|x l IH]; cbn [List.filter]; [constructor |].
  destruct (f x); [apply sublist_skip | apply sublist_cons]; exact IH.
Qed.

Lemma rules_first_in_order (st : state) (inputs : list string)
    (ds : list (string * string)) (fms : FieldMappings) :
  Forall2 (rule_for st inputs) ds fms -> Forall (first_in_order inputs) fms.
Proof.
  intros H. apply rules_candidates in H.
  eapply List.Forall_impl; [| exact H].
  intros fm [Hm Hi]. split; [exact Hm |].
  exists (List.filter (fun src => has_field st src (name (outputField fm))) inputs).
  split; [apply filter_sublist | exact Hi].
Qed.

(** C1 -- when every desired field is in at least one source, the plan
    is built: one rule per desired field, in the order of the desired
    fields, each with the field name as the name of its output field and
    the alias as its label; one source with the field is enough. *)
Theorem build_field_mappings_one_rule_per_field
    (inputs : list string) (st : state) :
  (forall f a, In (f, a) desired ->
     exists src, In src inputs /\ has_field st src f = true) ->
  exists fms,
    build_field_mappings inputs st = (Ok fms, st, [])
    /\ length fms = length desired
    /\ map (fun fm => (name (outputField fm), aliasName (outputField fm))) fms
       = [("OrigPlan", "Original Plan"); ("DocLink", "Document Link")].
Proof.
  intros Hcov.
  destruct (build_field_mappings_outcome inputs st) as ([fms | e] & E & Hr).
  - exists fms. split; [exact E |]. destruct Hr as [Hr _]. split.
    + symmetry. eapply Forall2_length, Hr.
    + apply (rules_names _ _ _ _ Hr).
  - destruct Hr as (f & Hin & Hm & _). exfalso.
    apply in_map_iff in Hin as ([f' a] & <- & Hin).
    destruct (Hcov f' a Hin) as (src & Hsrc & Hhas). cbn [fst] in Hm.
    rewrite (proj1 (missing_true _ _ _) Hm src Hsrc) in Hhas. discriminate.
Qed.

(** C2 -- when a desired field is in no source, building the plan fails
    with the error that names such a field and the inputs, and it fails
    in no other way; no plan comes back with the error.  A plan that is
    built lists, for each rule, exactly the sources that have the field:
    a source without it is left out, which is no error. *)
Theorem build_field_mappings_schema_mismatch
    (inputs : list string) (st : state) :
  ((exists f, In f (map fst desired)
              /\ forall src, In src inputs -> has_field st src f = false) ->
   exists f,
     In f (map fst desired)
     /\ (forall src, In src inputs -> has_field st src f = false)
     /\ build_field_mappings inputs st
        = (Raise (RuntimeError ("Field '" +:+ f +:+ "' not found in any input: "
                                +:+ Py.repr_list inputs)), st, []))
  /\ (forall e, outcome (build_field_mappings inputs st) = Raise e ->
      exists f,
        In f (map fst desired)
        /\ (forall src, In src inputs -> has_field st src f = false)
        /\ e = RuntimeError ("Field '" +:+ f +:+ "' not found in any input: "
                             +:+ Py.repr_list inputs))
  /\ (forall fms, outcome (build_field_mappings inputs st) = Ok fms ->
      Forall (fun fm => forall src,
                In src (map fst (inputFields fm))
                <-> In src inputs
                    /\ has_field st src (name (outputField fm)) = true) fms).
Proof.
  destruct (build_field_mappings_outcome inputs st) as (r & E & Hr).
  rewrite E. unfold outcome. cbn [fst].
  assert (Hraise : forall e, r = Raise e ->
    exists f, In f (map fst desired)
      /\ (forall src, In src inputs -> has_field st src f = false)
      /\ e = not_found_in_any f inputs).
  { intros e ->. destruct Hr as (f & Hin & Hm & ->).
    exists f. rewrite <- missing_true. auto. }
  split; [| split].
  - intros (f & Hin & Hm). destruct r as [fms | e].
    + exfalso. destruct Hr as [_ Hr]. apply missing_true in Hm.
      rewrite (Hr f Hin) in Hm. discriminate.
    + destruct (Hraise e eq_refl) as (f' & Hin' & Hm' & ->).
      exists f'. auto.
  - intros e He. destruct (Hraise e He) as (f & Hin & Hm & ->). exists f. auto.
  - intros fms ->. destruct Hr as [Hr _].
    apply rules_candidates in Hr. eapply List.Forall_impl; [| exact Hr].
    intros fm [_ Hi] src. rewrite Hi. apply in_candidates.
Qed.

End Plan.

(** ** Reasoning about runs *)

Section Logic.

Context {world : Type} {arcpy : Arcpy world}.
Local Abbreviation state := (@state world).
Local Abbreviation event := (@event world).
Local Abbreviation M := (@M world).

Implicit Types (st : state) (h tr : list event).

Lemma triple_eta {A} (x : result A * state * list event) :
  x = (outcome x, final x, trace x).
Proof. destruct x as [[r s] t]. reflexivity. Qed.

Lemma wp_run {A} (m : M A) Q st :
  wp m Q st [] -> Q (outcome (m st)) (final (m st)) (trace (m st)).
Proof. exact (fun H => H). Qed.

Lemma wp_ret {A} (a : A) Q st h : Q (Ok a) st h -> wp (ret a) Q st h.
Proof. unfold wp, ret, outcome, final, trace. cbn. now rewrite app_nil_r. Qed.

Lemma wp_raise {A} (e : exn) (Q : result A -> _) st h :
  Q (Raise e) st h -> wp (raise e) Q st h.
Proof. unfold wp, raise, outcome, final, trace. cbn. now rewrite app_nil_r. Qed.

Lemma wp_bind {A B} (m : M A) (k : A -> M B) Q st h :
  wp m (carry_on k Q) st h -> wp (bind m k) Q st h.
Proof.
  unfold wp, carry_on, bind, outcome, final, trace.
  destruct (m st) as [[[a|e] st1] t1]; cbn; [| exact (fun H => H)].
  unfold wp, outcome, final, trace.
  destruct (k a st1) as [[r st2] t2]. cbn. now rewrite app_assoc.
Qed.

Lemma wp_when (b : bool) (m : M unit) Q st h :
  (if b then wp m Q st h else Q (Ok tt) st h) -> wp (when b m) Q st h.
Proof. destruct b; [exact (fun H => H) | apply wp_ret]. Qed.

Lemma wp_logging l msg args Q st h :
  Q (Ok tt) st (h ++ [(st, Logged l msg args)]) ->
  wp (logging l msg args) Q st h.
Proof. exact (fun H => H). Qed.

Lemma wp_query {A} c (inj : A -> value) f Q st h :
  (forall r, f (env st) (store st) = r ->
     Q r st (h ++ [(st, Called c (map_result inj r))])) ->
  wp (query c inj f) Q st h.
Proof. intros H. apply (H _ eq_refl). Qed.

Lemma wp_tool {A} c (inj : A -> value) f Q st h :
  (forall r w, f (env st) (store st) = (r, w) ->
     Q r {| env := env st; store := w |}
       (h ++ [(st, Called c (map_result inj r))])) ->
  wp (tool c inj f) Q st h.
Proof.
  intros H. unfold wp, tool, outcome, final, trace.
  destruct (f (env st) (store st)) as [r w] eqn:E. cbn. apply (H _ _ eq_refl).
Qed.

(** the calls of ArcPy, one rule each *)

Lemma wp_Exists n Q st h :
  Q (Ok (arcpy_Exists (env st) (store st) n)) st
    (h ++ [(st, Called (cExists n)
                  (Ok (VBool (arcpy_Exists (env st) (store st) n))))]) ->
  wp (Exists n) Q st h.
Proof. intros H. apply wp_query. intros r <-. exact H. Qed.

Lemma wp_GetCount layer Q st h :
  (forall r, arcpy_GetCount (env st) (store st) layer = r ->
     Q r st (h ++ [(st, Called (cGetCount layer) (map_result VInt r))])) ->
  wp (GetCount layer) Q st h.
Proof. intros H. apply wp_query. exact H. Qed.

Lemma wp_ListFields ds Q st h :
  (forall r, arcpy_ListFields (env st) (store st) ds = r ->
     Q r st (h ++ [(st, Called (cListFields ds) (map_result VFields r))])) ->
  wp (ListFields ds) Q st h.
Proof. intros H. apply wp_query. exact H. Qed.

Lemma wp_Delete n Q st h :
  (forall r w, arcpy_Delete (env st) n (store st) = (r, w) ->
     Q r {| env := env st; store := w |}
       (h ++ [(st, Called (cDelete n) (map_result (fun _ => VNone) r))])) ->
  wp (Delete n) Q st h.
Proof. intros H. apply wp_tool. exact H. Qed.

Lemma wp_MakeFeatureLayer d n c Q st h :
  (forall r w, arcpy_MakeFeatureLayer (env st) d n c (store st) = (r, w) ->
     Q r {| env := env st; store := w |}
       (h ++ [(st, Called (cMakeFeatureLayer d n c)
                     (map_result (fun _ => VNone) r))])) ->
  wp (MakeFeatureLayer d n c) Q st h.
Proof. intros H. apply wp_tool. exact H. Qed.

Lemma wp_SelectLayerByLocation l o s t Q st h :
  (forall r w,
     arcpy_SelectLayerByLocation (env st) l o s t (store st) = (r, w) ->
     Q r {| env := env st; store := w |}
       (h ++ [(st, Called (cSelectLayerByLocation l o s t)
                     (map_result (fun _ => VNone) r))])) ->
  wp (SelectLayerByLocation l o s t) Q st h.
Proof. intros H. apply wp_tool. exact H. Qed.

Lemma wp_Merge ins out fms Q st h :
  (forall r w, arcpy_Merge (env st) ins out fms (store st) = (r, w) ->
     Q r {| env := env st; store := w |}
       (h ++ [(st, Called (cMerge ins out fms) (map_result VStr r))])) ->
  wp (Merge ins out fms) Q st h.
Proof. intros H. apply wp_tool. exact H. Qed.

Lemma wp_DeleteIdentical ds fs Q st h :
  (forall r w, arcpy_DeleteIdentical (env st) ds fs (store st) = (r, w) ->
     Q r {| env := env st; store := w |}
       (h ++ [(st, Called (cDeleteIdentical ds fs)
                     (map_result (fun _ => VNone) r))])) ->
  wp (DeleteIdentical ds fs) Q st h.
Proof. intros H. apply wp_tool. exact H. Qed.

(** building the plan: no step, no change, and an outcome as told *)
Lemma wp_plan (inputs : list string) Q st h :
  (forall r, plan_outcome st inputs r -> Q r st h) ->
  wp (build_field_mappings inputs) Q st h.
Proof.
  intros H. destruct (build_field_mappings_outcome inputs st) as (r & E & Hr).
  unfold wp, outcome, final, trace. rewrite E. cbn. rewrite app_nil_r. auto.
Qed.

(** the body of [with arcpy.EnvManager(...)] runs under the settings, and
    whatever its outcome the former settings are back afterwards *)
Lemma wp_EnvManager {A} (settings : Env) (body : M A) Q st h :
  wp body (fun r st' h' => Q r {| env := env st; store := store st' |} h')
    {| env := settings; store := store st |} h ->
  wp (with_ (EnvManager_enter settings) EnvManager_exit body) Q st h.
Proof.
  unfold wp, with_, bind, try_finally, EnvManager_enter, EnvManager_exit,
    outcome, final, trace. cbn.
  destruct (body _) as [[r st1] t1]. cbn. now rewrite app_nil_r.
Qed.

(** clearing a name and carrying on *)
Lemma wp_clear {B} (n : string) (k : M B) Q st h :
  (forall r st' tr, clearing n st r st' tr ->
     carry_on (fun _ => k) Q r st' (h ++ tr)) ->
  wp (bind (Exists n) (fun ex => bind (when ex (Delete n)) (fun _ => k))) Q st h.
Proof.
  intros H. apply wp_bind, wp_Exists.
  unfold carry_on at 1. apply wp_bind.
  destruct (arcpy_Exists (env st) (store st) n) eqn:E; apply wp_when.
  - apply wp_Delete. intros [[]|e] w Ed; cbn [map_result].
    + specialize (H _ _ _ (clearing_deleted n st w E Ed)).
      rewrite <- app_assoc. exact H.
    + specialize (H _ _ _ (clearing_failed n st e w E Ed)).
      rewrite <- app_assoc. exact H.
  - exact (H _ _ _ (clearing_absent n st E)).
Qed.

(** *** What clearing does *)

Lemma clearing_env n st r st' tr : clearing n st r st' tr -> env st' = env st.
Proof. destruct 1; reflexivity. Qed.

Lemma clearing_steps n st r st' tr :
  clearing n st r st' tr ->
  Forall (fun ev => fst ev = st /\ check_of n (snd ev)) tr.
Proof.
  destruct 1; repeat constructor; cbn; unfold check_of; eauto.
Qed.

Lemma clearing_truthful n st r st' tr :
  clearing n st r st' tr -> Forall look_is_true tr.
Proof.
  destruct 1; repeat constructor; unfold look_is_true; cbn; congruence.
Qed.

Lemma clearing_cleared n st st' tr (b : list event) :
  clearing n st (Ok tt) st' tr -> cleared n (rev tr ++ b).
Proof. inversion 1; subst; cbn; auto. Qed.

Lemma clearing_free n st st' tr :
  delete_removes -> clearing n st (Ok tt) st' tr ->
  arcpy_Exists (env st') (store st') n = false.
Proof. intros Hlaw. inversion 1; subst; cbn; eauto. Qed.

(** *** Traces in pieces *)

Lemma each_creation_cleared_app creates (b t1 t2 : list event) :
  each_creation_cleared creates b (t1 ++ t2)
  <-> each_creation_cleared creates b t1
      /\ each_creation_cleared creates (rev t1 ++ b) t2.
Proof.
  revert b. induction t1 as [|ev t1 IH]; intros b; cbn.
  - tauto.
  - rewrite IH, <- app_assoc. cbn. tauto.
Qed.

Lemma checks_create_nothing creates n (b tr : list event) :
  creates (cExists n) = None -> creates (cDelete n) = None ->
  Forall (fun ev => check_of n (snd ev)) tr ->
  each_creation_cleared creates b tr.
Proof.
  intros H1 H2 H. revert b. induction H as [|ev tr [o [E | E]] _ IH];
    intros b; cbn; [exact I | |]; rewrite E; cbn; rewrite ?H1, ?H2; auto.
Qed.

Lemma dedup_after_merge_app r (t1 t2 : list event) :
  Forall (fun ev => merged (snd ev) = None) t1 ->
  dedup_after_merge r (t1 ++ t2) <-> dedup_after_merge r t2.
Proof.
  induction 1 as [|ev t1 E _ IH]; cbn; [tauto |]. rewrite E. exact IH.
Qed.

Lemma clearing_creates_nothing creates n st r st' tr (b : list event) :
  creates (cExists n) = None -> creates (cDelete n) = None ->
  clearing n st r st' tr -> each_creation_cleared creates b tr.
Proof.
  intros H1 H2 Hc. apply (checks_create_nothing creates n); [exact H1 | exact H2 |].
  apply clearing_steps in Hc. eapply List.Forall_impl; [| exact Hc].
  intros ev [_ H]. exact H.
Qed.

Lemma layer_calls_app (t1 t2 : list event) :
  layer_calls (t1 ++ t2) = layer_calls t1 ++ layer_calls t2.
Proof. apply flat_map_app. Qed.

Lemma layer_calls_cons (ev : event) (tr : list event) :
  layer_calls (ev :: tr) = layer_calls [ev] ++ layer_calls tr.
Proof. unfold layer_calls. cbn. now rewrite app_nil_r. Qed.

Lemma clearing_layer_calls n st r st' tr :
  clearing n st r st' tr -> layer_calls tr = [].
Proof. destruct 1; reflexivity. Qed.

Lemma no_merge_dedup r (tr : list event) :
  Forall (fun ev => merged (snd ev) = None) tr -> dedup_after_merge r tr.
Proof. induction 1 as [|ev tr E _ IH]; cbn; [exact I |]. now rewrite E. Qed.

End Logic.

(** ** Reasoning about the order of steps *)

Section Order.

Context {S : Type}.
Implicit Types (tr pre post before : list (S * entry)) (ev : S * entry).







Lemma each_after_cons (P : list (S * entry) -> S * entry -> Prop)
    before ev tr :
  P before ev -> each_after P (ev :: before) tr -> each_after P before (ev :: tr).
Proof. cbn. auto. Qed.

Lemma each_after_app (P : list (S * entry) -> S * entry -> Prop)
    before (t1 t2 : list (S * entry)) :
  each_after P before (t1 ++ t2)
  <-> each_after P before t1 /\ each_after P (rev t1 ++ before) t2.
Proof.
  revert before. induction t1 as [|ev t1 IH]; intros before; cbn.
  - tauto.
  - rewrite IH, <- app_assoc. cbn. tauto.
Qed.

Lemma each_after_split (P : list (S * entry) -> S * entry -> Prop) tr :
  each_after P [] tr ->
  forall pre ev post, tr = pre ++ ev :: post -> P (rev pre) ev.
Proof.
  intros H pre ev post ->. apply each_after_app in H as [_ H].
  rewrite app_nil_r in H. apply H.
Qed.

Lemma each_after_pointwise (P : list (S * entry) -> S * entry -> Prop)
    before tr :
  Forall (fun ev => forall b, P b ev) tr -> each_after P before tr.
Proof.
  intros H. revert before. induction H as [|ev tr H _ IH]; intros before; cbn; auto.
Qed.

End Order.

Section OrderOfClearing.

Context {world : Type} {arcpy : Arcpy world}.
Local Abbreviation state := (@state world).
Local Abbreviation event := (@event world).

Implicit Types (st : state) (tr : list event).

Lemma clearing_ok_no_failure n st st' tr :
  clearing n st (Ok tt) st' tr ->
  Forall (fun ev => failure (snd ev) = None) tr.
Proof. inversion 1; subst; repeat constructor. Qed.



Lemma stages_app (t1 t2 : list event) :
  stages (t1 ++ t2) = stages t1 ++ stages t2.
Proof. apply flat_map_app. Qed.

Lemma stages_cons (ev : event) tr : stages (ev :: tr) = stages [ev] ++ stages tr.
Proof. unfold stages. cbn. now rewrite app_nil_r. Qed.

Lemma clearing_stages n st r st' tr : clearing n st r st' tr -> stages tr = [].
Proof. destruct 1; reflexivity. Qed.

(** what a clearing deletes is its name, and the store has it *)
Lemma clearing_deletes (targets : list string) n st r st' tr :
  In n targets ->
  clearing n st r st' tr -> Forall (deletes_what_exists targets) tr.
Proof.
  intros Hin. destruct 1; repeat constructor; unfold deletes_what_exists; cbn; auto.
Qed.

(** the settings that are back after [with arcpy.EnvManager(...)] *)
Lemma with_EnvManager_env {A} (settings : Env) (body : M A) st :
  env (final (with_ (EnvManager_enter settings) EnvManager_exit body st)) = env st.
Proof.
  unfold with_, bind, try_finally, EnvManager_enter, EnvManager_exit, final.
  cbn. destruct (body _) as [[r st1] t1]. reflexivity.
Qed.

End OrderOfClearing.

(** ** [run_of2] *)

Section Pipeline.

Context {os_path : OsPath} {world : Type} {arcpy : Arcpy world}.
Local Abbreviation state := (@state world).
Local Abbreviation event := (@event world).

Lemma or_str_some (s : string) : Py.or_str (Some s) "" = s.
Proof.
  unfold Py.or_str, Py.truthy.
  destruct (String.eqb_spec s ""); [subst; reflexivity | reflexivity].
Qed.

Lemma Forall_pieces {A} (P : A -> Prop) (l1 l2 : list A) :
  Forall P l1 -> Forall P l2 -> Forall P (l1 ++ l2).
Proof. intros H1 H2. apply Forall_app. auto. Qed.

(** the steps of a clearing satisfy what every look and every deletion
    in the state of the clearing satisfies *)
Lemma clearing_Forall (P : event -> Prop) n (st : state) r st' tr :
  clearing n st r st' tr ->
  (forall e, check_of n e -> P (st, e)) ->
  Forall P tr.
Proof.
  intros Hc HP. apply clearing_steps in Hc.
  eapply List.Forall_impl; [| exact Hc].
  intros [s e] [Hs He]. cbn in Hs, He. subst s. auto.
Qed.

Variables expression workspace_gdb storm_catchment storm_cleanout
          parcels output_fc : string.
Variable scratch_gdb : option string.

Local Abbreviation run :=
  (run_of2 expression workspace_gdb storm_catchment storm_cleanout
     parcels output_fc scratch_gdb).

Ltac tidy :=
  cbv beta; cbn [fst snd env store app negb map_result];
  repeat (match goal with
          | |- context [(?a ++ ?b) ++ ?c] => rewrite <- (app_assoc a b c)
          end; cbn [app]).

(** one step through a computation *)
Ltac wp_step :=
  lazymatch goal with
  | |- wp (ensure_layer _ _ _) _ _ _ => unfold ensure_layer
  | |- wp (bind _ _) _ _ _ =>
      first [ apply wp_clear;
              let Hc := fresh "Hclear" in
              intros [[]|?] ? ? Hc;
              pose proof (clearing_env _ _ _ _ _ Hc)
            | apply wp_bind ]
  | |- wp (when (negb ?b) _) _ _ _ => apply wp_when; destruct b eqn:?
  | |- wp (when ?b _) _ _ _ => apply wp_when; destruct b eqn:?
  | |- wp (if ?b then _ else _) _ _ _ => destruct b eqn:?
  | |- carry_on _ _ (Ok _) _ _ => unfold carry_on at 1
  | |- carry_on _ _ (Raise _) _ _ => unfold carry_on at 1
  | |- wp (ret _) _ _ _ => apply wp_ret
  | |- wp (raise _) _ _ _ => apply wp_raise
  | |- wp (logging _ _ _) _ _ _ => apply wp_logging
  | |- wp (build_field_mappings _) _ _ _ => apply wp_plan; intros [?|?] ?
  | |- wp (Exists _) _ _ _ => apply wp_Exists
  | |- wp (GetCount _) _ _ _ => apply wp_GetCount; intros [?|?] ?
  | |- wp (ListFields _) _ _ _ => apply wp_ListFields; intros [?|?] ?
  | |- wp (Delete _) _ _ _ => apply wp_Delete; intros [[]|?] ? ?
  | |- wp (MakeFeatureLayer _ _ _) _ _ _ =>
      apply wp_MakeFeatureLayer; intros [[]|?] ? ?
  | |- wp (SelectLayerByLocation _ _ _ _) _ _ _ =>
      apply wp_SelectLayerByLocation; intros [[]|?] ? ?
  | |- wp (Merge _ _ _) _ _ _ => apply wp_Merge; intros [?|?] ? ?
  | |- wp (DeleteIdentical _ _) _ _ _ =>
      apply wp_DeleteIdentical; intros [[]|?] ? ?
  end; tidy.

(** through a whole run: one goal for each way it can end, with the
    steps taken so far; the steps of a clearing stay abstract *)
Ltac wp_run_of2 :=
  match goal with
  | |- context [run_of2 _ _ _ _ _ _ _ ?st] =>
      pattern (outcome (run st)), (final (run st)), (trace (run st))
  end;
  apply wp_run; unfold run_of2; cbv zeta;
  fold (scoped_env workspace_gdb scratch_gdb);
  fold (out_path_of workspace_gdb output_fc);
  apply wp_EnvManager;
  repeat wp_step.

(** a property of every step, over a trace in pieces *)
Ltac each_step tac :=
  repeat first [ constructor | apply Forall_pieces ];
  first [ eapply clearing_Forall; [eassumption | intros ? ?] | idtac ];
  tac.

(** a trace in pieces, for [each_creation_cleared] *)
Ltac creations :=
  repeat first
    [ exact I
    | eapply clearing_cleared; eassumption
    | eapply clearing_creates_nothing; [reflexivity | reflexivity | eassumption]
    | match goal with
      | |- each_creation_cleared ?c ?b (?t1 ++ ?t2) =>
          apply (proj2 (each_creation_cleared_app c b t1 t2))
      | |- each_creation_cleared _ _ (_ :: _) =>
          cbn [each_creation_cleared created snd layer_of output_of]
      | |- each_creation_cleared _ _ [] => exact I
      | |- _ /\ _ => split
      end ].

Ltac count_layers :=
  repeat match goal with
         | |- context [layer_calls (?a ++ ?b)] => rewrite (layer_calls_app a b)
         | |- context [layer_calls (?e :: ?t)] =>
             lazymatch t with
             | [] => fail
             | _ => rewrite (layer_calls_cons e t)
             end
         | H : clearing _ _ _ _ ?tr |- context [layer_calls ?tr] =>
             rewrite (clearing_layer_calls _ _ _ _ _ H)
         end;
  unfold layer_calls; cbn [flat_map snd app];
  rewrite ?or_str_some; cbn [Py.or_str].

(** C3 -- every rule of a plan has the merge rule [First], and its
    candidates are the sources that have the field, in the order in
    which the sources were given; the merge of a run is given the
    catchment layer before the cleanout layer, with a plan of such
    rules. *)
Theorem plan_first_in_input_order (inputs : list string) (st0 st : state) :
  (forall fms, outcome (build_field_mappings inputs st0) = Ok fms ->
     Forall (fun fm =>
       mergeRule fm = "First"
       /\ inputFields fm = candidates st0 inputs (name (outputField fm))) fms)
  /\ Forall (fun ev => merge_in_order (snd ev)) (trace (run st)).
Proof.
  split.
  - destruct (build_field_mappings_outcome inputs st0) as (r & E & Hr).
    rewrite E. unfold outcome. cbn [fst]. intros fms ->.
    destruct Hr as [Hr _]. apply (rules_candidates _ _ _ _ Hr).
  - wp_run_of2.
    all: each_step ltac:(idtac); cbn [snd merge_in_order]; try exact I.
    all: try match goal with
         | H : check_of _ _ |- _ => destruct H as [? [-> | ->]]; exact I
         end.
    all: match goal with
         | H : plan_outcome _ _ (Ok _) |- _ =>
             destruct H as [H _]; apply (rules_first_in_order _ _ _ _ H)
         end.
Qed.

Ltac no_merges :=
  each_step ltac:(idtac); cbn [snd merged]; try reflexivity;
  match goal with
  | H : check_of _ _ |- _ => destruct H as [? [-> | ->]]; reflexivity
  end.

(** the trace up to the merge, then what follows it *)
Ltac to_the_merge :=
  repeat match goal with
         | |- dedup_after_merge _ (_ ++ _) =>
             apply dedup_after_merge_app; [no_merges |]
         | |- dedup_after_merge _ (_ :: _) =>
             cbn [dedup_after_merge merged snd]
         | |- dedup_after_merge _ [] => exact I
         end.

Ltac find_merge :=
  match goal with
  | |- merged_into _ ?h =>
      match h with
      | context [(?s, Called (cMerge ?i ?o ?f) (Ok (VStr ?p)))] =>
          exists (s, Called (cMerge i o f) (Ok (VStr p)))
      end
  end;
  split; [| reflexivity];
  repeat first [ apply in_or_app; right | left; reflexivity | right ].

(** C5 -- after the merge the fields of what it returned are listed:
    with [OrigPlan] among them [DeleteIdentical] is called on that
    dataset with exactly that field, and the run returns the dataset
    when the call returns; without it the run logs a warning, calls
    nothing more and returns the dataset.  A run that returns has
    merged into what it returns. *)
Theorem run_of2_dedup_or_warn (st : state) :
  dedup_after_merge (outcome (run st)) (trace (run st))
  /\ (forall p, outcome (run st) = Ok p -> merged_into p (trace (run st))).
Proof.
  wp_run_of2.
  all: split; [| intros p Hp; first [discriminate Hp | injection Hp as <-; find_merge]].
  all: to_the_merge.
  all: try (apply no_merge_dedup; no_merges).
  all: cbn [steps map snd after_merge];
    repeat match goal with
           | H : Py.contains _ _ = _ |- _ => rewrite H
           end;
    repeat first [ split | reflexivity | eexists ].
Qed.

(** C6 -- the three resolved references are looked up in the order
    parcels, catchment, cleanout, and the first that does not exist ends
    the run with the error that names it; nothing else has been called
    by then, and the state is what it was.  With all three in place
    the run goes on after the three looks. *)
Theorem run_of2_dataset_not_found (st : state) :
  let ws := abspath workspace_gdb in
  let s := scoped workspace_gdb scratch_gdb st in
  let found p := arcpy_Exists (env s) (store s) (resolve_dataset p ws) in
  let looked p b := (s, Called (cExists (resolve_dataset p ws)) (Ok (VBool b))) in
  (found parcels = false ->
   run st
   = (Raise (FileNotFoundError
               ("Parcels dataset not found: " +:+ resolve_dataset parcels ws)),
      st, [looked parcels false]))
  /\ (found parcels = true -> found storm_catchment = false ->
      run st
      = (Raise (FileNotFoundError
                  ("Storm Catchment dataset not found: "
                   +:+ resolve_dataset storm_catchment ws)),
         st, [looked parcels true; looked storm_catchment false]))
  /\ (found parcels = true -> found storm_catchment = true ->
      found storm_cleanout = false ->
      run st
      = (Raise (FileNotFoundError
                  ("Storm Cleanout dataset not found: "
                   +:+ resolve_dataset storm_cleanout ws)),
         st, [looked parcels true; looked storm_catchment true;
              looked storm_cleanout false]))
  /\ (found parcels = true -> found storm_catchment = true ->
      found storm_cleanout = true ->
      exists rest,
        trace (run st)
        = [looked parcels true; looked storm_catchment true;
           looked storm_cleanout true] ++ rest).
Proof.
  destruct st as [e w]. cbv zeta. unfold scoped. cbn [env store].
  split; [| split; [| split]]; intros.
  1-3: rewrite (triple_eta (run _)); wp_run_of2;
    first [congruence | reflexivity].
  wp_run_of2; first [congruence | eexists; reflexivity].
Qed.

(** C7 -- the merge writes to [output_fc] itself when that has a
    directory part, and to its join with the workspace otherwise; it
    comes right after that location was looked up and found free, or
    found taken and deleted, so that under the law of [Delete] it
    writes where no dataset exists. *)
Theorem run_of2_output_overwritten (st : state) :
  (dirname output_fc <> "" -> out_path_of workspace_gdb output_fc = output_fc)
  /\ (dirname output_fc = "" ->
      out_path_of workspace_gdb output_fc = join (abspath workspace_gdb) output_fc)
  /\ Forall (fun ev => merges_to (out_path_of workspace_gdb output_fc) (snd ev))
       (trace (run st))
  /\ each_creation_cleared output_of [] (trace (run st))
  /\ (delete_removes -> Forall (on_free_name output_of) (trace (run st))).
Proof.
  split; [| split].
  - unfold out_path_of, Py.truthy.
    destruct (String.eqb_spec (dirname output_fc) ""); [contradiction | reflexivity].
  - unfold out_path_of. intros ->. reflexivity.
  - wp_run_of2.
    all: split;
      [each_step ltac:(idtac); cbn [snd merges_to]; try exact I; try reflexivity;
       match goal with
       | H : check_of _ _ |- _ => destruct H as [? [-> | ->]]; exact I
       end |].
    all: split; [creations |].
    all: intros Hlaw.
    all: each_step ltac:(idtac).
    all: unfold on_free_name; cbn [fst snd created output_of].
    all: try exact I.
    all: try (eapply clearing_free; eassumption).
    all: try match goal with
         | H : check_of _ _ |- _ => destruct H as [? [-> | ->]]; exact I
         end.
Qed.

(** C8 -- a layer is made only right after its name was looked up and
    found free, or found taken and deleted, and a look records what
    the store answers; under the law of [Delete] the layer is then
    made on a store without a layer of that name.  The layers are
    those of the parcels, with the expression as where clause, of the
    catchment and of the cleanout, both with an empty where clause, in
    that order; a run that returns has made all three. *)
Theorem run_of2_layers_recreated (st : state) :
  let ws := abspath workspace_gdb in
  let expected :=
    [cMakeFeatureLayer (resolve_dataset parcels ws) "parcels_layer" expression;
     cMakeFeatureLayer (resolve_dataset storm_catchment ws)
       "storm_catchment_layer" "";
     cMakeFeatureLayer (resolve_dataset storm_cleanout ws)
       "storm_cleanout_layer" ""] in
  each_creation_cleared layer_of [] (trace (run st))
  /\ (exists rest, expected = layer_calls (trace (run st)) ++ rest)
  /\ (forall p, outcome (run st) = Ok p ->
      layer_calls (trace (run st)) = expected)
  /\ Forall look_is_true (trace (run st))
  /\ (delete_removes -> Forall (on_free_name layer_of) (trace (run st))).
Proof.
  cbv zeta. wp_run_of2.
  all: split; [creations |].
  all: split; [count_layers; eexists; reflexivity |].
  all: split; [intros p Hp; first [discriminate Hp | count_layers; reflexivity] |].
  all: split;
    [repeat first [ constructor | apply Forall_pieces ];
     first [ eapply clearing_truthful; eassumption
           | unfold look_is_true; cbn [fst snd env store];
             first [exact I | congruence] ] |].
  all: intros Hlaw.
  all: each_step ltac:(idtac).
  all: unfold on_free_name; cbn [fst snd created layer_of].
  all: try exact I.
  all: try (eapply clearing_free; eassumption).
  all: try match goal with
       | H : check_of _ _ |- _ => destruct H as [? [-> | ->]]; exact I
       end.
Qed.

(** C9 -- whatever way a run ends, with a value or with an error of the
    validation or of a tool, the settings of [arcpy.env] are afterwards
    what they were before; in between, every step is taken under the
    settings of the run. *)
Theorem run_of2_releases_context (st : state) :
  env (final (run st)) = env st
  /\ Forall (fun ev => env (fst ev) = scoped_env workspace_gdb scratch_gdb)
       (trace (run st)).
Proof.
  wp_run_of2.
  all: split; [reflexivity |].
  all: each_step ltac:(cbn [fst env] in *; congruence).
Qed.

(** *** Further properties of a run *)

Ltac no_failures :=
  repeat first [ constructor | apply Forall_pieces ];
  first [ eapply clearing_ok_no_failure; eassumption | reflexivity ].




Ltac count_stages :=
  repeat match goal with
         | |- context [stages (?a ++ ?b)] => rewrite (stages_app a b)
         | |- context [stages (?e :: ?t)] =>
             lazymatch t with
             | [] => fail
             | _ => rewrite (stages_cons e t)
             end
         | H : clearing _ _ _ _ ?tr |- context [stages ?tr] =>
             rewrite (clearing_stages _ _ _ _ _ H)
         end;
  unfold stages, pipeline; cbn [flat_map snd app stage_of].

(** X5 -- the stages of a run come in one order: the three layers, parcels
    first, the selection, the two counts, the record of the
    diagnostics, the merge, the listing of the fields of the output,
    and then the removal of identical records or the warning; a run
    that fails has gone through an initial part of them, and a run
    that returns has gone through all. *)
Theorem run_of2_stages_in_order (st : state) :
  (exists last rest,
     In last [Dedup; DedupSkipped]
     /\ pipeline ++ [last] = stages (trace (run st)) ++ rest)
  /\ (forall p, outcome (run st) = Ok p ->
      exists last,
        In last [Dedup; DedupSkipped]
        /\ stages (trace (run st)) = pipeline ++ [last]).
Proof.
  wp_run_of2.
  all: split;
    [| intros p Hp;
       first [ discriminate Hp
             | count_stages;
               first [ exists Dedup; split; [cbn; tauto | reflexivity]
                     | exists DedupSkipped; split; [cbn; tauto | reflexivity] ] ] ].
  all: count_stages;
    first [ exists Dedup; eexists; split; [cbn; tauto | reflexivity]
          | exists DedupSkipped; eexists; split; [cbn; tauto | reflexivity] ].
Qed.

Ltac find_in :=
  repeat first [ left; reflexivity | right | apply in_or_app; right ].

(** through a trace in pieces, for a property of each step and the
    steps before it that holds of every look and every deletion *)
Ltac afters tac :=
  repeat match goal with
         | |- each_after _ _ (?t1 ++ ?t2) =>
             apply (proj2 (each_after_app _ _ t1 t2)); split;
             [ apply each_after_pointwise;
               eapply clearing_Forall;
               [eassumption | intros ? [? [-> | ->]] ?; exact I] |]
         | |- each_after _ _ (_ :: _) =>
             apply each_after_cons; [first [exact I | tac] |]
         | |- each_after _ _ [] => exact I
         | H : clearing _ _ _ _ ?tr |- each_after _ _ ?tr =>
             apply each_after_pointwise;
             eapply clearing_Forall;
             [exact H | intros ? [? [-> | ->]] ?; exact I]
         end.

Lemma merge_after_selection_split (tr : list event) :
  each_after merge_after_selection [] tr ->
  forall pre ev post ins out fms o,
    tr = pre ++ ev :: post -> snd ev = Called (cMerge ins out fms) o ->
    (exists s, In (s, Called selection (Ok VNone)) pre)
    /\ (forall n, In n layer_names ->
        exists s d w, In (s, Called (cMakeFeatureLayer d n w) (Ok VNone)) pre).
Proof.
  intros H pre ev post ins out fms o E Hev.
  pose proof (each_after_split _ _ H _ _ _ E) as Hm.
  unfold merge_after_selection in Hm. rewrite Hev in Hm.
  destruct Hm as [[s Hs] Hl]. split.
  - exists s. apply in_rev, Hs.
  - intros n Hn. destruct (Hl n Hn) as (s' & d & w & Hin).
    exists s', d, w. apply in_rev, Hin.
Qed.

(** X6 -- every selection by location is that of the two storm layers, the
    catchment first, by the parcels layer, as a new selection of what
    intersects; and a merge is called only after that selection has
    been made and has returned, on three layers that have been made. *)
Theorem run_of2_merges_the_selection (st : state) :
  Forall (fun ev => selects_storm_by_parcels (snd ev)) (trace (run st))
  /\ (forall pre ev post ins out fms o,
        trace (run st) = pre ++ ev :: post ->
        snd ev = Called (cMerge ins out fms) o ->
        (exists s, In (s, Called selection (Ok VNone)) pre)
        /\ (forall n, In n layer_names ->
            exists s d w,
              In (s, Called (cMakeFeatureLayer d n w) (Ok VNone)) pre)).
Proof.
  wp_run_of2.
  all: split;
    [each_step ltac:(idtac); cbn [snd selects_storm_by_parcels];
     try exact I; try reflexivity;
     match goal with
     | H : check_of _ _ |- _ => destruct H as [? [-> | ->]]; exact I
     end |].
  all: apply merge_after_selection_split.
  all: afters ltac:(
    unfold merge_after_selection; cbn [snd]; split;
    [ eexists; find_in
    | intros n Hn; cbn in Hn;
      destruct Hn as [<- | [<- | [<- | []]]]; do 3 eexists; find_in ]).
Qed.

Lemma counts_logged_split (tr : list event) :
  each_after counts_logged [] tr ->
  forall pre ev post msg args,
    tr = pre ++ ev :: post -> snd ev = Logged INFO msg args ->
    msg = "Selected %d catchment and %d cleanout features"
    /\ exists a b pre',
         pre = pre' ++ [(fst ev, Called (cGetCount "storm_catchment_layer")
                                   (Ok (VInt a)));
                        (fst ev, Called (cGetCount "storm_cleanout_layer")
                                   (Ok (VInt b)))]
         /\ args = [a; b].
Proof.
  intros H pre ev post msg args E Hev.
  pose proof (each_after_split _ _ H _ _ _ E) as Hc.
  unfold counts_logged in Hc. rewrite Hev in Hc. destruct Hc as [Hmsg Hc].
  split; [exact Hmsg |].
  match type of Hc with
  | match ?l with _ => _ end =>
      destruct l as [|[s2 e2] [|[s1 e1] rest]] eqn:Er; try contradiction;
        destruct e2 as [[] [[]|]|]; try contradiction
  end.
  destruct e1 as [[] [[]|]|]; try contradiction.
  destruct Hc as (-> & -> & -> & -> & ->).
  apply (f_equal (@rev _)) in Er. rewrite rev_involutive in Er. subst pre.
  eexists _, _, (rev rest). split; [| reflexivity].
  cbn [rev]. rewrite <- app_assoc. reflexivity.
Qed.

(** X7 -- the record of the diagnostics comes right after the count of the
    catchment layer and the count of the cleanout layer, taken in one
    state of the store, and it carries the two numbers that they
    returned, in that order. *)
Theorem run_of2_logs_the_counts (st : state) :
  forall pre ev post msg args,
    trace (run st) = pre ++ ev :: post -> snd ev = Logged INFO msg args ->
    msg = "Selected %d catchment and %d cleanout features"
    /\ exists a b pre',
         pre = pre' ++ [(fst ev, Called (cGetCount "storm_catchment_layer")
                                   (Ok (VInt a)));
                        (fst ev, Called (cGetCount "storm_cleanout_layer")
                                   (Ok (VInt b)))]
         /\ args = [a; b].
Proof.
  wp_run_of2.
  all: apply counts_logged_split.
  all: afters ltac:(unfold counts_logged; cbn [snd fst]; repeat split; reflexivity).
Qed.

Ltac deletions :=
  repeat first [ constructor | apply Forall_pieces ];
  first [ eapply clearing_deletes; [| eassumption]; cbn; auto 10
        | exact I ].

(** X8 -- what a run deletes is a layer of its own or what is at the
    location of the output, and nothing else; and it deletes a name
    only in a state of the store that has the name. *)
Theorem run_of2_deletes_only_its_own (st : state) :
  Forall (deletes_what_exists
            (layer_names ++ [out_path_of workspace_gdb output_fc]))
    (trace (run st)).
Proof.
  wp_run_of2.
  all: deletions.
Qed.




(** X2 -- [ensure_layer] looks at the layer, deletes it when it is there, and
    makes it from the dataset, with an empty where clause for none;
    it calls nothing else.  When it returns, it returns the name of
    the layer, and its last step has made the layer; when the deletion
    fails it raises what the deletion raised and makes no layer.  The
    settings stay as they are. *)
Theorem ensure_layer_contract (dataset_path layer_name : string)
    (where_ : option string) (st : state) :
  let r := ensure_layer dataset_path layer_name where_ st in
  let making :=
    cMakeFeatureLayer dataset_path layer_name
      (match where_ with
       | Some w => w
       | None => ""
       end) in
  (forall x, outcome r = Ok x ->
     x = layer_name
     /\ exists pre s, trace r = pre ++ [(s, Called making (Ok VNone))])
  /\ Forall (fun ev =>
       step_of_ensure_layer dataset_path layer_name
         (match where_ with
          | Some w => w
          | None => ""
          end) (snd ev)) (trace r)
  /\ (forall s x, In (s, Called (cDelete layer_name) (Raise x)) (trace r) ->
      outcome r = Raise x /\ layer_calls (trace r) = [])
  /\ each_creation_cleared layer_of [] (trace r)
  /\ env (final r) = env st.
Proof.
  cbv zeta.
  assert (Hw : Py.or_str where_ "" = match where_ with Some w => w | None => "" end)
    by (destruct where_; [apply or_str_some | reflexivity]).
  pattern (outcome (ensure_layer dataset_path layer_name where_ st)),
          (final (ensure_layer dataset_path layer_name where_ st)),
          (trace (ensure_layer dataset_path layer_name where_ st)).
  apply wp_run. repeat wp_step.
  all: rewrite ?Hw.
  all: split;
    [intros x Hx;
     first [ discriminate Hx
           | injection Hx as <-; split; [reflexivity | eexists _, _; reflexivity] ] |].
  all: split;
    [repeat first [ apply List.Forall_nil | apply List.Forall_cons
                  | apply Forall_pieces ];
     first [ eapply clearing_Forall; [eassumption |];
             intros ? [o [-> | ->]]; exists o; cbn [snd]; auto
           | eexists; cbn [snd]; right; right; reflexivity ] |].
  all: split;
    [intros s x Hin; try apply in_app_or in Hin;
     match goal with
     | H : clearing _ _ _ _ _ |- _ => inversion H; subst; clear H
     end;
     cbn in Hin; intuition (try discriminate);
     repeat match goal with
            | H : (_, _) = (_, _) |- _ => injection H as -> ->
            | H : _ = _ |- _ => discriminate H
            end;
     split; reflexivity |].
  all: split; [creations | cbn [env]; congruence].
Qed.

(** a run with one of the three datasets missing: it raises the error
    of the validation for a dataset that is missing, it has only
    looked, and the state is what it was *)
Lemma run_of2_missing_dataset (st : state) :
  let ws := abspath workspace_gdb in
  let s := scoped workspace_gdb scratch_gdb st in
  let found p := arcpy_Exists (env s) (store s) (resolve_dataset p ws) in
  found parcels && found storm_catchment && found storm_cleanout = false ->
  exists label ref,
    In (label, ref) [("Parcels", parcels); ("Storm Catchment", storm_catchment);
                     ("Storm Cleanout", storm_cleanout)]
    /\ found ref = false
    /\ outcome (run st)
       = Raise (FileNotFoundError
                  (label +:+ " dataset not found: " +:+ resolve_dataset ref ws))
    /\ final (run st) = st
    /\ Forall (fun ev => exists n b, snd ev = Called (cExists n) (Ok (VBool b)))
         (trace (run st)).
Proof.
  destruct st as [e w]. cbv zeta. unfold scoped. cbn [env store]. intros Hmiss.
  wp_run_of2.
  all: try (exfalso;
            repeat match goal with
                   | H : arcpy_Exists _ _ _ = true |- _ =>
                       rewrite H in Hmiss; clear H
                   end;
            discriminate Hmiss).
  all: first
    [ exists "Parcels", parcels; split; [cbn; tauto |];
      split; [assumption |]; split; [reflexivity |]; split; [reflexivity |]
    | exists "Storm Catchment", storm_catchment; split; [cbn; tauto |];
      split; [assumption |]; split; [reflexivity |]; split; [reflexivity |]
    | exists "Storm Cleanout", storm_cleanout; split; [cbn; tauto |];
      split; [assumption |]; split; [reflexivity |]; split; [reflexivity |] ].
  all: repeat (apply List.Forall_cons; [cbn [snd]; eauto |]); apply List.Forall_nil.
Qed.

End Pipeline.

(** ** More about [resolve_dataset] and [build_field_mappings] *)

Section Qualified.

Context {os_path : OsPath}.

(** X1 -- under an absolute workspace, and with a [join] that keeps what
    it joins to an absolute path absolute, a resolved reference is an
    absolute path or URL-prefixed, and resolving it once more gives it
    back. *)
Theorem resolve_dataset_idempotent (ref ws : string) :
  (forall a b, isabs a = true -> isabs (join a b) = true) ->
  isabs ws = true ->
  (isabs (resolve_dataset ref ws) = true \/ url_prefixed (resolve_dataset ref ws))
  /\ resolve_dataset (resolve_dataset ref ws) ws = resolve_dataset ref ws.
Proof.
  intros Hjoin Hws.
  assert (H : isabs (resolve_dataset ref ws) = true
              \/ url_test (resolve_dataset ref ws) = true).
  { unfold resolve_dataset. fold (url_test ref).
    destruct (isabs ref) eqn:Ea; cbn [orb]; [left; exact Ea |].
    destruct (url_test ref) eqn:Eu; [right; exact Eu | left; apply Hjoin, Hws]. }
  split.
  - destruct H as [H | H]; [left; exact H | right; apply url_test_iff, H].
  - generalize dependent (resolve_dataset ref ws). intros r H.
    unfold resolve_dataset. fold (url_test r).
    destruct H as [-> | ->]; rewrite ?orb_true_r; reflexivity.
Qed.

(** X14 -- the location of the output is not resolved as the inputs
    are.  For a reference that is neither absolute nor URL-prefixed:
    a bare name is joined to the workspace in both roles; a reference
    with a directory part is joined to the workspace as an input, and
    taken as it is, whatever the workspace, as the output. *)
Theorem output_resolved_unlike_inputs (ref ws : string) :
  isabs ref = false -> ~ url_prefixed ref ->
  (dirname ref = "" ->
   out_path_of ws ref = resolve_dataset ref (abspath ws))
  /\ (dirname ref <> "" ->
      out_path_of ws ref = ref
      /\ resolve_dataset ref (abspath ws) = join (abspath ws) ref).
Proof.
  intros Habs Hurl.
  assert (Hin : resolve_dataset ref (abspath ws) = join (abspath ws) ref).
  { unfold resolve_dataset. fold (url_test ref). rewrite Habs.
    destruct (url_test ref) eqn:E; [| reflexivity].
    exfalso. apply Hurl, url_test_iff, E. }
  unfold out_path_of, Py.truthy. split.
  - intros ->. rewrite Hin. reflexivity.
  - intros Hdir. split; [| exact Hin].
    destruct (String.eqb_spec (dirname ref) ""); [contradiction | reflexivity].
Qed.

End Qualified.

Section FirstMissing.

Context {world : Type} {arcpy : Arcpy world}.

(** X3 -- the error of the plan names the first desired field that no source
    has: [OrigPlan] when no source has it, whatever is the case for
    [DocLink], and [DocLink] when some source has [OrigPlan] and none
    has [DocLink].  Without any source the plan fails on [OrigPlan]. *)
Theorem build_field_mappings_names_first_missing
    (inputs : list string) (st : @state world) :
  ((forall src, In src inputs -> has_field st src "OrigPlan" = false) ->
   build_field_mappings inputs st
   = (Raise (RuntimeError ("Field 'OrigPlan' not found in any input: "
                           +:+ Py.repr_list inputs)), st, []))
  /\ ((exists src, In src inputs /\ has_field st src "OrigPlan" = true) ->
      (forall src, In src inputs -> has_field st src "DocLink" = false) ->
      build_field_mappings inputs st
      = (Raise (RuntimeError ("Field 'DocLink' not found in any input: "
                              +:+ Py.repr_list inputs)), st, []))
  /\ build_field_mappings [] st
     = (Raise (RuntimeError "Field 'OrigPlan' not found in any input: []"),
        st, []).
Proof.
  assert (Hfirst : forall ins,
    (forall src, In src ins -> has_field st src "OrigPlan" = false) ->
    build_field_mappings ins st
    = (Raise (not_found_in_any "OrigPlan" ins), st, [])).
  { intros ins H. apply missing_true in H.
    pose proof (build_field_mappings_run ins st) as Hrun.
    unfold desired in Hrun. cbn [List.find fst] in Hrun.
    rewrite H in Hrun. exact Hrun. }
  split; [| split].
  - apply Hfirst.
  - intros (src & Hin & Hhas) H. apply missing_true in H.
    pose proof (build_field_mappings_run inputs st) as Hrun.
    unfold desired in Hrun. cbn [List.find fst] in Hrun.
    destruct (missing st inputs "OrigPlan") eqn:E.
    + rewrite (proj1 (missing_true _ _ _) E src Hin) in Hhas. discriminate Hhas.
    + rewrite H in Hrun. exact Hrun.
  - apply (Hfirst []). intros src [].
Qed.

End FirstMissing.

(** ** [main] and the script as a program *)

Section Program.

Context {os_path : OsPath} {world : Type} {arcpy : Arcpy world}.
Context {interpreter : Interpreter}.
Local Abbreviation state := (@state world).

Lemma ran_of_run (c : act state) (tr : list (state * entry)) (acts : list (act state)) :
  ran (c :: map Ran tr ++ acts) = ran [c] ++ tr ++ ran acts.
Proof.
  unfold ran. cbn [flat_map]. rewrite flat_map_app, app_nil_r. do 2 f_equal.
  induction tr as [|ev tr IH]; cbn; [reflexivity | now rewrite IH].
Qed.

Lemma printed_of_run (c : act state) (tr : list (state * entry))
    (acts : list (act state)) :
  printed (c :: map Ran tr ++ acts) = printed [c] ++ printed acts.
Proof.
  unfold printed. cbn [flat_map]. rewrite flat_map_app, app_nil_r. do 2 f_equal.
  induction tr as [|ev tr IH]; cbn; [reflexivity | exact IH].
Qed.

Lemma logged_exceptions_of_run (c : act state) (tr : list (state * entry))
    (acts : list (act state)) :
  logged_exceptions (c :: map Ran tr ++ acts)
  = logged_exceptions [c] ++ logged_exceptions acts.
Proof.
  unfold logged_exceptions. cbn [flat_map].
  rewrite flat_map_app, app_nil_r. do 2 f_equal.
  induction tr as [|ev tr IH]; cbn; [reflexivity | exact IH].
Qed.

Lemma run_for_env (args : argparse.Namespace) (st : state) :
  env (final (run_for args st)) = env st.
Proof. unfold run_for, run_of2. apply with_EnvManager_env. Qed.

(** X10 -- the exit status of the program: when the parser exits, its
    status, with nothing done; otherwise 0 when the workflow has
    returned and its result has been printed, and 1 in every other
    case, whatever the workflow or [print] raised.  The first word of
    [sys.argv] plays no part, and the settings of [arcpy.env] are
    afterwards what they were. *)
Theorem script_exit_status (sys_argv : list string) (st : state) :
  (forall status, parse_args (tl sys_argv) = argparse.Exit status ->
     script sys_argv st = (status, st, []))
  /\ (forall args, parse_args (tl sys_argv) = argparse.Parsed args ->
      let status := fst (fst (script sys_argv st)) in
      (status = 0 \/ status = 1)
      /\ (status = 0 <->
          exists p, outcome (run_for args st) = Ok p /\ print_raises p = None))
  /\ env (snd (fst (script sys_argv st))) = env st.
Proof.
  unfold script, main.
  destruct (parse_args (tl sys_argv)) as [args | c]; (split; [| split]).
  - discriminate.
  - intros ? [= <-]. cbv zeta. fold (run_for args).
    destruct (run_for args st) as [[[p | x] st'] tr]; unfold outcome;
      cbn [fst snd].
    + destruct (print_raises p) as [text |] eqn:Ep; cbn [fst snd].
      * split; [right; reflexivity |]. split; [discriminate |].
        intros (p' & [= <-] & H). congruence.
      * split; [left; reflexivity |]. split; [eauto | reflexivity].
    + split; [right; reflexivity |]. split; [discriminate |].
      intros (p' & H & _). discriminate H.
  - fold (run_for args). pose proof (run_for_env args st) as He.
    destruct (run_for args st) as [[[p | x] st'] tr]; unfold final in He;
      cbn [fst snd] in He |- *; [| exact He].
    destruct (print_raises p); exact He.
  - intros ? [= <-]. reflexivity.
  - discriminate.
  - reflexivity.
Qed.


(** X12 -- a command line that names a dataset which the store does not have:
    [main] returns 1, it has done nothing but look, the store and the
    settings are what they were, nothing has reached standard output,
    and the one exception that is logged is the error of the
    validation, which names a dataset that is missing. *)
Theorem main_missing_dataset (argv : list string) (st : state)
    (args : argparse.Namespace) :
  let ws := abspath (argparse.workspace args) in
  let s := scoped (argparse.workspace args) (argparse.scratch args) st in
  let found p := arcpy_Exists (env s) (store s) (resolve_dataset p ws) in
  parse_args argv = argparse.Parsed args ->
  found (argparse.parcels args) && found (argparse.storm_catchment args)
    && found (argparse.storm_cleanout args) = false ->
  exists label ref,
    In (label, ref) [("Parcels", argparse.parcels args);
                     ("Storm Catchment", argparse.storm_catchment args);
                     ("Storm Cleanout", argparse.storm_cleanout args)]
    /\ found ref = false
    /\ fst (main argv st) = (Return 1, st)
    /\ printed (snd (main argv st)) = []
    /\ logged_exceptions (snd (main argv st))
       = [Workflow (FileNotFoundError
                      (label +:+ " dataset not found: " +:+ resolve_dataset ref ws))]
    /\ Forall (fun ev => exists n b, snd ev = Called (cExists n) (Ok (VBool b)))
         (ran (snd (main argv st))).
Proof.
  cbv zeta. intros Hparse Hmiss.
  destruct (run_of2_missing_dataset
              (argparse.expression args) (argparse.workspace args)
              (argparse.storm_catchment args) (argparse.storm_cleanout args)
              (argparse.parcels args) (argparse.output args)
              (argparse.scratch args) st Hmiss)
    as (label & ref & Hin & Href & Hout & Hfin & Hlooks).
  exists label, ref. split; [exact Hin |]. split; [exact Href |].
  unfold main. rewrite Hparse.
  destruct (run_of2 _ _ _ _ _ _ _ st) as [[r st'] tr].
  unfold outcome, final, trace in Hout, Hfin, Hlooks. cbn [fst snd] in Hout, Hfin, Hlooks.
  subst r st'. cbn [fst snd].
  rewrite printed_of_run, logged_exceptions_of_run, ran_of_run.
  cbn. rewrite app_nil_r. auto.
Qed.

(** X13 -- the flag [verbose] changes the level given to [logging.basicConfig]
    and nothing else: two command lines whose namespaces differ in it
    at most end in the same way, in the same state, after the same
    acts but for the first. *)
Theorem main_verbose_changes_the_level_only (argv argv' : list string)
    (st : state) (args args' : argparse.Namespace) :
  parse_args argv = argparse.Parsed args ->
  parse_args argv' = argparse.Parsed args' ->
  argparse.workspace args' = argparse.workspace args ->
  argparse.scratch args' = argparse.scratch args ->
  argparse.storm_catchment args' = argparse.storm_catchment args ->
  argparse.storm_cleanout args' = argparse.storm_cleanout args ->
  argparse.parcels args' = argparse.parcels args ->
  argparse.expression args' = argparse.expression args ->
  argparse.output args' = argparse.output args ->
  fst (main argv' st) = fst (main argv st)
  /\ exists rest,
       snd (main argv st)
       = BasicConfig (if argparse.verbose args then logging_DEBUG else logging_INFO)
           "%(asctime)s %(levelname)s %(message)s" :: rest
       /\ snd (main argv' st)
          = BasicConfig (if argparse.verbose args' then logging_DEBUG
                         else logging_INFO)
              "%(asctime)s %(levelname)s %(message)s" :: rest.
Proof.
  intros Hp Hp' E1 E2 E3 E4 E5 E6 E7. unfold main.
  rewrite Hp, Hp', E1, E2, E3, E4, E5, E6, E7.
  destruct (run_of2 _ _ _ _ _ _ _ st) as [[[p | x] st'] tr]; cbn [fst snd].
  - destruct (print_raises p); cbn [fst snd]; split; try reflexivity;
      eexists; split; reflexivity.
  - split; [reflexivity |]. eexists; split; reflexivity.
Qed.

End Program.

(** ** The reference store *)

Lemma RefStore_delete_removes : @delete_removes RefStore.world RefStore.arcpy.
Proof.
  intros e n w w' H.
  change (RefStore.delete_ n w = (Ok tt, w')) in H.
  change (RefStore.exists_ w' n = false).
  unfold RefStore.delete_ in H. unfold RefStore.exists_.
  unfold RefStore.world in *.
  destruct (w !! n) eqn:E; [| discriminate H].
  injection H as <-. now rewrite lookup_delete_eq.
Qed.

(** On the small geodatabase both classes have [OrigPlan] and only the
    cleanout class has [DocLink]: the plan has its two rules. *)
Lemma build_field_mappings_one_rule_per_field_witness :
  exists fms,
    @build_field_mappings _ RefStore.arcpy RefStore.sources RefStore.st0
    = (Ok fms, RefStore.st0, [])
    /\ length fms = length desired
    /\ map (fun fm => (name (outputField fm), aliasName (outputField fm))) fms
       = [("OrigPlan", "Original Plan"); ("DocLink", "Document Link")].
Proof.
  apply build_field_mappings_one_rule_per_field.
  intros f a [H | [H | []]]; injection H as <- <-.
  - exists "/gis/Default.gdb/Storm Catchment". split; [left |]; reflexivity.
  - exists "/gis/Default.gdb/Storm Cleanout".
    split; [right; left |]; reflexivity.
Defined.

(** With the catchment class as the only source, [DocLink] is in no
    source: the error names the field and the source. *)
Lemma build_field_mappings_schema_mismatch_witness :
  (exists f,
     In f (map fst desired)
     /\ (forall src, In src ["/gis/Default.gdb/Storm Catchment"] ->
         @has_field _ RefStore.arcpy RefStore.st0 src f = false)
     /\ @build_field_mappings _ RefStore.arcpy
          ["/gis/Default.gdb/Storm Catchment"] RefStore.st0
        = (Raise (RuntimeError
                    ("Field '" +:+ f +:+ "' not found in any input: "
                     +:+ Py.repr_list ["/gis/Default.gdb/Storm Catchment"])),
           RefStore.st0, []))
  /\ @build_field_mappings _ RefStore.arcpy
       ["/gis/Default.gdb/Storm Catchment"] RefStore.st0
     = (Raise (RuntimeError
                 "Field 'DocLink' not found in any input: ['/gis/Default.gdb/Storm Catchment']"),
        RefStore.st0, []).
Proof.
  split; [| vm_compute; reflexivity].
  apply (proj1 (@build_field_mappings_schema_mismatch _ RefStore.arcpy
                  ["/gis/Default.gdb/Storm Catchment"] RefStore.st0)).
  exists "DocLink". split; [right; left; reflexivity |].
  intros src [<- | []]. reflexivity.
Defined.

(** On the small geodatabase the rule of [OrigPlan] has the catchment
    class before the cleanout class, and the rule of [DocLink] has the
    cleanout class alone. *)
Lemma plan_first_in_input_order_witness :
  exists fms,
    outcome (@build_field_mappings _ RefStore.arcpy RefStore.sources RefStore.st0)
    = Ok fms
    /\ map inputFields fms
       = [[("/gis/Default.gdb/Storm Catchment", "OrigPlan");
           ("/gis/Default.gdb/Storm Cleanout", "OrigPlan")];
          [("/gis/Default.gdb/Storm Cleanout", "DocLink")]]
    /\ Forall (fun fm =>
         mergeRule fm = "First"
         /\ inputFields fm
            = @candidates _ RefStore.arcpy RefStore.st0 RefStore.sources
                (name (outputField fm))) fms.
Proof.
  eexists. split; [vm_compute; reflexivity |]. split; [reflexivity |].
  apply (proj1 (@plan_first_in_input_order RefStore.posix _ RefStore.arcpy
                  "" "" "" "" "" "" None RefStore.sources
                  RefStore.st0 RefStore.st0)).
  vm_compute. reflexivity.
Defined.

(** The run on the small geodatabase returns the output, which it has
    merged into. *)
Lemma run_of2_dedup_or_warn_witness :
  outcome (RefStore.run0 RefStore.st0) = Ok RefStore.out0
  /\ merged_into RefStore.out0 (trace (RefStore.run0 RefStore.st0)).
Proof.
  split; [vm_compute; reflexivity |].
  apply (proj2 (@run_of2_dedup_or_warn RefStore.posix _ RefStore.arcpy
                  "PARCEL_NUMBER = '6195400110'" "Default.gdb"
                  "Storm Catchment" "Storm Cleanout" "Parcels"
                  "OF_property_edit" None RefStore.st0)).
  vm_compute. reflexivity.
Defined.

(** Without anything in the geodatabase the parcels are reported; without
    the catchment class, the catchment class. *)
Lemma run_of2_dataset_not_found_witness :
  outcome (RefStore.run0 RefStore.st_empty)
  = Raise (FileNotFoundError "Parcels dataset not found: /gis/Default.gdb/Parcels")
  /\ outcome (RefStore.run0 RefStore.st_no_catchment)
     = Raise (FileNotFoundError
                "Storm Catchment dataset not found: /gis/Default.gdb/Storm Catchment").
Proof.
  unfold RefStore.run0, RefStore.run_where. split.
  - rewrite (proj1 (@run_of2_dataset_not_found RefStore.posix _ RefStore.arcpy
                      "PARCEL_NUMBER = '6195400110'" "Default.gdb"
                      "Storm Catchment" "Storm Cleanout" "Parcels"
                      "OF_property_edit" None RefStore.st_empty));
      reflexivity.
  - rewrite (proj1 (proj2 (@run_of2_dataset_not_found RefStore.posix _
                      RefStore.arcpy
                      "PARCEL_NUMBER = '6195400110'" "Default.gdb"
                      "Storm Catchment" "Storm Cleanout" "Parcels"
                      "OF_property_edit" None RefStore.st_no_catchment)));
      reflexivity.
Defined.

(** With an output left by an earlier run: the name of the output is
    joined to the workspace, the old output is deleted, the merge of the
    reference store writes where nothing exists, and the output of the
    run is that of a run without the old output. *)
Lemma run_of2_output_overwritten_witness :
  @out_path_of RefStore.posix "Default.gdb" "OF_property_edit" = RefStore.out0
  /\ Forall (@on_free_name _ RefStore.arcpy output_of)
       (trace (RefStore.run0 RefStore.st_stale))
  /\ In (Called (cDelete RefStore.out0) (Ok VNone))
        (steps (trace (RefStore.run0 RefStore.st_stale)))
  /\ store (final (RefStore.run0 RefStore.st_stale)) !! RefStore.out0
     = store (final (RefStore.run0 RefStore.st0)) !! RefStore.out0.
Proof.
  pose proof (@run_of2_output_overwritten RefStore.posix _ RefStore.arcpy
                "PARCEL_NUMBER = '6195400110'" "Default.gdb"
                "Storm Catchment" "Storm Cleanout" "Parcels"
                "OF_property_edit" None RefStore.st_stale)
    as (_ & Hjoin & _ & _ & Hfree).
  split; [| split; [| split]].
  - rewrite Hjoin; reflexivity.
  - apply Hfree, RefStore_delete_removes.
  - vm_compute. do 14 right. left. reflexivity.
  - vm_compute. reflexivity.
Defined.

(** In a second run the layers of the first run exist; each is made
    again on a store that does not have it any more, and the store after
    the second run is the store after the first. *)
Lemma run_of2_layers_recreated_witness :
  Forall (@on_free_name _ RefStore.arcpy layer_of)
    (trace (RefStore.run0 (final (RefStore.run0 RefStore.st0))))
  /\ store (final (RefStore.run0 (final (RefStore.run0 RefStore.st0))))
     = store (final (RefStore.run0 RefStore.st0)).
Proof.
  split; [| vm_compute; reflexivity].
  apply (@run_of2_layers_recreated RefStore.posix _ RefStore.arcpy
           "PARCEL_NUMBER = '6195400110'" "Default.gdb"
           "Storm Catchment" "Storm Cleanout" "Parcels"
           "OF_property_edit" None (final (RefStore.run0 RefStore.st0))).
  apply RefStore_delete_removes.
Defined.

(** ** Runs on the store of names *)

Lemma posixpath_join_absolute (a b : string) :
  posixpath.isabs a = true -> posixpath.isabs (posixpath.join a b) = true.
Proof.
  unfold posixpath.isabs, posixpath.join. intros Ha.
  destruct (Py.startswith b "/") eqn:Eb; [exact Eb |].
  apply startswith_app in Ha as [rest ->].
  destruct (_ || _); reflexivity.
Qed.

(** On [posixpath], under [/gis/Default.gdb]: the resolved name of the
    parcels resolves to itself. *)
Lemma resolve_dataset_idempotent_witness :
  @resolve_dataset RefStore.posix
    (@resolve_dataset RefStore.posix "Parcels" "/gis/Default.gdb")
    "/gis/Default.gdb"
  = "/gis/Default.gdb/Parcels".
Proof.
  rewrite (proj2 (@resolve_dataset_idempotent RefStore.posix
                    "Parcels" "/gis/Default.gdb"
                    posixpath_join_absolute eq_refl)).
  reflexivity.
Defined.

(** On a store whose tables have [OrigPlan] and never [DocLink], the
    error names [DocLink]. *)
Lemma build_field_mappings_names_first_missing_witness :
  @build_field_mappings _ NameStore.arcpy_without_doclink
    ["/gis/Default.gdb/Storm Catchment"; "/gis/Default.gdb/Storm Cleanout"]
    NameStore.st0
  = (Raise (RuntimeError
              "Field 'DocLink' not found in any input: ['/gis/Default.gdb/Storm Catchment', '/gis/Default.gdb/Storm Cleanout']"),
     NameStore.st0, []).
Proof.
  apply (proj1 (proj2 (@build_field_mappings_names_first_missing
                         _ NameStore.arcpy_without_doclink
                         ["/gis/Default.gdb/Storm Catchment";
                          "/gis/Default.gdb/Storm Cleanout"] NameStore.st0))).
  - exists "/gis/Default.gdb/Storm Catchment". split; [left |]; reflexivity.
  - intros src [<- | [<- | []]]; reflexivity.
Defined.

(** The layer of the parcels: it is made as the last step, and its name
    comes back. *)
Lemma ensure_layer_contract_witness :
  outcome (@ensure_layer _ NameStore.arcpy "/gis/Default.gdb/Parcels"
             "parcels_layer" None NameStore.st0)
  = Ok "parcels_layer"
  /\ exists pre s,
       trace (@ensure_layer _ NameStore.arcpy "/gis/Default.gdb/Parcels"
                "parcels_layer" None NameStore.st0)
       = pre ++ [(s, Called (cMakeFeatureLayer "/gis/Default.gdb/Parcels"
                               "parcels_layer" "") (Ok VNone))].
Proof.
  split; [vm_compute; reflexivity |].
  apply (proj1 (@ensure_layer_contract _ NameStore.arcpy
                  "/gis/Default.gdb/Parcels" "parcels_layer" None NameStore.st0)
           "parcels_layer").
  vm_compute. reflexivity.
Defined.


(** The run on the three classes goes through all the stages, and ends
    with the removal of identical records. *)
Lemma run_of2_stages_in_order_witness :
  stages (trace (NameStore.run0 NameStore.st0)) = pipeline ++ [Dedup]
  /\ exists last,
       In last [Dedup; DedupSkipped]
       /\ stages (trace (NameStore.run0 NameStore.st0)) = pipeline ++ [last].
Proof.
  split; [vm_compute; reflexivity |].
  apply (proj2 (@run_of2_stages_in_order RefStore.posix _ NameStore.arcpy
                  "PARCEL_NUMBER = '6195400110'" "Default.gdb"
                  "Storm Catchment" "Storm Cleanout" "Parcels"
                  "OF_property_edit" None NameStore.st0)
           "/gis/Default.gdb/OF_property_edit").
  vm_compute. reflexivity.
Defined.

(** In the run on the three classes the merge is the fifteenth step: the
    selection is among the fourteen before it. *)
Lemma run_of2_merges_the_selection_witness :
  exists s,
    In (s, Called selection (Ok VNone))
       (firstn 14 (trace (NameStore.run0 NameStore.st0))).
Proof.
  pose (tr := trace (NameStore.run0 NameStore.st0)).
  pose (ev := nth 14 tr (NameStore.st0, dedup_warning)).
  assert (Hsplit : tr = firstn 14 tr ++ ev :: skipn 15 tr)
    by (vm_compute; reflexivity).
  assert (Hmerge : exists ins out fms o, snd ev = Called (cMerge ins out fms) o)
    by (vm_compute; do 4 eexists; reflexivity).
  destruct Hmerge as (ins & out & fms & o & Hmerge).
  exact (proj1 (proj2 (@run_of2_merges_the_selection RefStore.posix _
                         NameStore.arcpy
                         "PARCEL_NUMBER = '6195400110'" "Default.gdb"
                         "Storm Catchment" "Storm Cleanout" "Parcels"
                         "OF_property_edit" None NameStore.st0)
                  (firstn 14 tr) ev (skipn 15 tr) ins out fms o Hsplit Hmerge)).
Defined.

(** In the run on the three classes the record of the diagnostics is the
    thirteenth step; the store has seven names by then, and both counts
    say so. *)
Lemma run_of2_logs_the_counts_witness :
  exists a b pre' s,
    firstn 12 (trace (NameStore.run0 NameStore.st0))
    = pre' ++ [(s, Called (cGetCount "storm_catchment_layer") (Ok (VInt a)));
               (s, Called (cGetCount "storm_cleanout_layer") (Ok (VInt b)))]
    /\ snd (nth 12 (trace (NameStore.run0 NameStore.st0))
              (NameStore.st0, dedup_warning))
       = Logged INFO "Selected %d catchment and %d cleanout features" [a; b].
Proof.
  pose (tr := trace (NameStore.run0 NameStore.st0)).
  pose (ev := nth 12 tr (NameStore.st0, dedup_warning)).
  assert (Hsplit : tr = firstn 12 tr ++ ev :: skipn 13 tr)
    by (vm_compute; reflexivity).
  assert (Hlog : exists msg args, snd ev = Logged INFO msg args)
    by (vm_compute; do 2 eexists; reflexivity).
  destruct Hlog as (msg & args & Hlog).
  destruct (@run_of2_logs_the_counts RefStore.posix _ NameStore.arcpy
              "PARCEL_NUMBER = '6195400110'" "Default.gdb"
              "Storm Catchment" "Storm Cleanout" "Parcels"
              "OF_property_edit" None NameStore.st0
              (firstn 12 tr) ev (skipn 13 tr) msg args Hsplit Hlog)
    as (Hmsg & a & b & pre' & Hpre & Hargs).
  exists a, b, pre', (fst ev). split; [exact Hpre |].
  fold tr. fold ev. rewrite Hlog, Hmsg, Hargs. reflexivity.
Defined.


(** The program on the three classes: a command line that the parser of
    the reference interpreter turns down gives its status and nothing
    else; the command line
    of the small geodatabase gives 0, and 1 when the standard output is
    closed. *)
Lemma script_exit_status_witness :
  RefCli.script0 ["of2_cli.py"; "--no-such-option"] NameStore.st0 = (2, NameStore.st0, [])
  /\ fst (fst (RefCli.script0 ("of2_cli.py" :: RefCli.argv0) NameStore.st0)) = 0
  /\ fst (fst (RefCli.script_closed ("of2_cli.py" :: RefCli.argv0) NameStore.st0))
     = 1.
Proof.
  split; [| split].
  - apply (proj1 (@script_exit_status RefStore.posix _ NameStore.arcpy
                    RefCli.interpreter ["of2_cli.py"; "--no-such-option"] NameStore.st0)).
    reflexivity.
  - destruct (RefCli.parse_args parser RefCli.argv0) as [args |] eqn:Eargs;
      [| discriminate Eargs].
    apply (proj1 (proj2 (@script_exit_status RefStore.posix _ NameStore.arcpy
                           RefCli.interpreter ("of2_cli.py" :: RefCli.argv0)
                           NameStore.st0)) args Eargs).
    injection Eargs as <-.
    exists "/gis/Default.gdb/OF_property_edit". split; vm_compute; reflexivity.
  - destruct (RefCli.parse_args parser RefCli.argv0) as [args |] eqn:Eargs;
      [| discriminate Eargs].
    destruct (proj1 (proj1 (proj2 (@script_exit_status RefStore.posix _
                                     NameStore.arcpy RefCli.interpreter_closed
                                     ("of2_cli.py" :: RefCli.argv0)
                                     NameStore.st0)) args Eargs))
      as [H | H]; [| exact H].
    vm_compute in H. discriminate H.
Defined.


(** [main] without arguments, where the default workspace is not there:
    it returns 1, the store is what it was, and nothing is printed. *)
Lemma main_missing_dataset_witness :
  fst (RefCli.main0 [] NameStore.st0) = (Return 1, NameStore.st0)
  /\ printed (snd (RefCli.main0 [] NameStore.st0)) = [].
Proof.
  destruct (@main_missing_dataset RefStore.posix _ NameStore.arcpy
              RefCli.interpreter [] NameStore.st0 (RefCli.defaults parser)
              eq_refl eq_refl)
    as (label & ref & _ & _ & Hend & Hprinted & _).
  split; [exact Hend | exact Hprinted].
Defined.

(** [main] with and without [-v] on the command line of the small
    geodatabase: both end in the same way, in the same state. *)
Lemma main_verbose_changes_the_level_only_witness :
  fst (RefCli.main0 ("-v" :: RefCli.argv0) NameStore.st0)
  = fst (RefCli.main0 RefCli.argv0 NameStore.st0).
Proof.
  exact (proj1 (@main_verbose_changes_the_level_only RefStore.posix _
                  NameStore.arcpy RefCli.interpreter
                  RefCli.argv0 ("-v" :: RefCli.argv0) NameStore.st0 _ _
                  eq_refl eq_refl eq_refl eq_refl eq_refl eq_refl eq_refl
                  eq_refl eq_refl)).
Defined.

(** On [posixpath], with the workspace [/gis/Default.gdb]: [sub/OF2] as
    an input is in the workspace, and as the output it is where the
    current directory has it. *)
Lemma output_resolved_unlike_inputs_witness :
  @out_path_of RefStore.posix "Default.gdb" "sub/OF2" = "sub/OF2"
  /\ @resolve_dataset RefStore.posix "sub/OF2" "/gis/Default.gdb"
     = "/gis/Default.gdb/sub/OF2"
  /\ @out_path_of RefStore.posix "Default.gdb" "OF2" = "/gis/Default.gdb/OF2".
Proof.
  assert (Hno : forall ref, url_test ref = false -> ~ url_prefixed ref).
  { intros ref E H. apply url_test_iff in H. congruence. }
  destruct (proj2 (@output_resolved_unlike_inputs RefStore.posix
                     "sub/OF2" "Default.gdb" eq_refl (Hno "sub/OF2" eq_refl)))
    as [Hout Hin]; [discriminate |].
  split; [exact Hout |]. split; [exact Hin |].
  rewrite (proj1 (@output_resolved_unlike_inputs RefStore.posix
                    "OF2" "Default.gdb" eq_refl (Hno "OF2" eq_refl)) eq_refl).
  reflexivity.
Defined.

(** ** Runs on the small geodatabase

    One parcel is selected; two catchment and three cleanout features
    touch it, and two of the five share their [OrigPlan]. *)

Example run0_returns_output :
  outcome (RefStore.run0 RefStore.st0) = Ok RefStore.out0
  /\ env (final (RefStore.run0 RefStore.st0)) = RefStore.env0
  /\ layer_calls (trace (RefStore.run0 RefStore.st0))
     = [cMakeFeatureLayer "/gis/Default.gdb/Parcels" "parcels_layer"
          "PARCEL_NUMBER = '6195400110'";
        cMakeFeatureLayer "/gis/Default.gdb/Storm Catchment"
          "storm_catchment_layer" "";
        cMakeFeatureLayer "/gis/Default.gdb/Storm Cleanout"
          "storm_cleanout_layer" ""]
  /\ In (Logged INFO "Selected %d catchment and %d cleanout features" [2; 3])
       (steps (trace (RefStore.run0 RefStore.st0)))
  /\ List.last (steps (trace (RefStore.run0 RefStore.st0))) dedup_warning
     = Called (cDeleteIdentical RefStore.out0 ["OrigPlan"]) (Ok VNone).
Proof. vm_compute. repeat split. do 12 right. left. reflexivity. Qed.

(** Four records are left of the five, in the order of the inputs; the
    catchment class has no [DocLink]. *)
Example run0_output_records :
  option_map
    (fun it => map (fun r => (RefStore.attribute "OrigPlan" (RefStore.attributes r),
                              RefStore.attribute "DocLink" (RefStore.attributes r)))
                 (RefStore.rows it))
    (store (final (RefStore.run0 RefStore.st0)) !! RefStore.out0)
  = Some [("P-1", ""); ("P-2", ""); ("P-3", "d3"); ("P-4", "d4")].
Proof. vm_compute. reflexivity. Qed.

(** Without the parcels the run fails in the validation, and the state
    is what it was. *)
Example run0_validation_failure :
  final (RefStore.run0 RefStore.st_empty) = RefStore.st_empty
  /\ steps (trace (RefStore.run0 RefStore.st_empty))
     = [Called (cExists "/gis/Default.gdb/Parcels") (Ok (VBool false))].
Proof. vm_compute. split; reflexivity. Qed.

(** A where clause that the store rejects: the run fails in the tool,
    and the settings are back. *)
Example run_where_invalid_expression :
  outcome (RefStore.run_where "PARCEL_NUMBER LIKE" RefStore.st0)
  = Raise (ExecuteError "ERROR 000358: Invalid expression")
  /\ env (final (RefStore.run_where "PARCEL_NUMBER LIKE" RefStore.st0))
     = RefStore.env0.
Proof. vm_compute. split; reflexivity. Qed.

(** A where clause that selects no parcel: an empty output, no error. *)
Example run_where_no_parcel :
  outcome (RefStore.run_where "PARCEL_NUMBER = '0'" RefStore.st0)
  = Ok RefStore.out0
  /\ option_map RefStore.rows
       (store (final (RefStore.run_where "PARCEL_NUMBER = '0'" RefStore.st0))
          !! RefStore.out0)
     = Some [].
Proof. vm_compute. split; reflexivity. Qed.

(** On a store that reports no field for the output, the run ends with
    the warning and still returns the output. *)
Example run_no_schema_warns :
  outcome (RefStore.run_no_schema RefStore.st0) = Ok RefStore.out0
  /\ List.last (steps (trace (RefStore.run_no_schema RefStore.st0)))
       (Logged INFO "" [])
     = dedup_warning.
Proof. vm_compute. split; reflexivity. Qed.

(** An output with a directory part is used as it is. *)
Example out_path_with_directory :
  @out_path_of RefStore.posix "Default.gdb" "/data/out.gdb/OF2" = "/data/out.gdb/OF2"
  /\ @out_path_of RefStore.posix "Default.gdb" "OF2" = "/gis/Default.gdb/OF2".
Proof. vm_compute. split; reflexivity. Qed.
